(** * Bounded research pipeline of [agents.py]

    A shallow embedding of the search budget guard
    ([reset_search_counter], [increment_search_counter],
    [get_search_count]), of the search tool ([LinkUpSearchTool._run]),
    of [create_research_crew] and of the retry controller
    ([run_research]), followed by the properties of the specification.

    Python strings are modelled by [string] (characters are [ascii]),
    Python integers by [Z], the module globals by a [state] record that
    every operation threads, and exceptions by an explicit error monad
    that keeps the state reached when the exception was raised. *)

From Stdlib Require Import String Ascii ZArith QArith List Bool Lia DecimalString.
Import ListNotations.

Local Open Scope string_scope.
Local Open Scope Z_scope.

(** ** Python string primitives *)

Module Py.

(** The character written [\n] in the source. *)
Definition nl : string := String (ascii_of_nat 10) EmptyString.

(** [len(s)] *)
Definition len (s : string) : Z := Z.of_nat (String.length s).

(** [str(n)] for an integer, as an f-string prints it. *)
Definition str_of_int (n : Z) : string := NilZero.string_of_int (Z.to_int n).

(** [s[:n]] *)
Definition slice_to (n : nat) (s : string) : string := substring 0 n s.

(** [sub in s] *)
Fixpoint contains (sub s : string) : bool :=
  prefix sub s ||
  match s with
  | EmptyString => false
  | String _ s' => contains sub s'
  end.

Definition lower_char (c : ascii) : ascii :=
  let n := nat_of_ascii c in
  if ((65 <=? n) && (n <=? 90))%nat then ascii_of_nat (n + 32) else c.

(** [s.lower()] on the characters of the model. *)
Fixpoint lower (s : string) : string :=
  match s with
  | EmptyString => EmptyString
  | String c s' => String (lower_char c) (lower s')
  end.

(** Truth value of a string: [not s] is [negb (truthy s)]. *)
Definition truthy (s : string) : bool :=
  match s with EmptyString => false | _ => true end.

(** Truth value of what [os.getenv] returns ([None] is false). *)
Definition truthy_opt (o : option string) : bool :=
  match o with None => false | Some s => truthy s end.

End Py.

(** ** Exceptions, effects and the world outside the module *)

(** An instance of a subclass of [Exception]: [exc_type] is what
    [str(type(e))] prints and [exc_msg] what [str(e)] prints. *)
Record exn : Type := Exn { exc_type : string; exc_msg : string }.

Definition ImportError (msg : string) : exn := Exn "<class 'ImportError'>" msg.
Definition ValueError (msg : string) : exn := Exn "<class 'ValueError'>" msg.

(** Effects that leave the process, in the order they happen. *)
Inductive event : Type :=
| Sleep (seconds : Q)                                   (* time.sleep *)
| Print (line : string)                                 (* print *)
| LinkupSearch (query depth output_type : string) (ok : bool)
                                                        (* linkup_client.search; [ok] iff it returned *)
| PipelineStart (query : string) (count : Z).           (* create_research_crew is entered while
                                                           the search counter holds [count] *)

(** What the crew does once kicked off: it finishes with a report,
    raises, or calls its search tool and goes on from the text the tool
    returned. *)
Inductive agent : Type :=
| Finish (raw : string)
| Crash (e : exn)
| UseTool (query depth output_type : string) (k : string -> agent).

(** Everything [agents.py] reads but does not own. *)
Record externals : Type := {
  LINKUP_AVAILABLE : bool;                      (* set once, at import time *)
  getenv : string -> option string;             (* os.getenv *)
  linkup_search : nat -> string -> string -> string -> string + exn;
      (* [str] of the provider's answer to its n-th call, or the
         exception that call raises *)
  crew_behaviour : nat -> string -> agent;      (* the n-th crew built for a query *)
  framework_failure : nat -> string -> option exn
      (* the exception, if any, that the framework's constructors raise
         the n-th time a crew is put together *)
}.

(** The module's mutable state, with the cursors of the two oracles
    and the journal of effects (latest first). *)
Record state : Type := {
  _global_search_count : Z;
  provider_calls : nat;
  crews_built : nat;
  trace : list event
}.

Definition _max_searches : Z := 5.

(** Computations that may raise: the state survives the exception. *)
Definition M (A : Type) : Type := state -> (A + exn) * state.

Definition ret {A} (a : A) : M A := fun st => (inl a, st).
Definition raise {A} (e : exn) : M A := fun st => (inr e, st).
Definition bind {A B} (m : M A) (f : A -> M B) : M B :=
  fun st => match m st with
            | (inl a, st') => f a st'
            | (inr e, st') => (inr e, st')
            end.

(** [try: body / except Exception as e: handler e] *)
Definition try_except {A} (body : M A) (handler : exn -> M A) : M A :=
  fun st => match body st with
            | (inl a, st') => (inl a, st')
            | (inr e, st') => handler e st'
            end.

Declare Scope py_scope.
Delimit Scope py_scope with py.
Notation "x <- m ;; k" := (bind m (fun x => k))
  (at level 61, m at next level, right associativity) : py_scope.
Notation "m ;; k" := (bind m (fun _ => k))
  (at level 61, right associativity) : py_scope.
Local Open Scope py_scope.

Definition emit (e : event) : M unit :=
  fun st => (inl tt, {| _global_search_count := _global_search_count st;
                        provider_calls := provider_calls st;
                        crews_built := crews_built st;
                        trace := e :: trace st |}).

Definition time_sleep (seconds : Q) : M unit := emit (Sleep seconds).
Definition print (line : string) : M unit := emit (Print line).

(** ** Search budget guard *)

Definition reset_search_counter : M unit :=
  fun st => (inl tt, {| _global_search_count := 0;
                        provider_calls := provider_calls st;
                        crews_built := crews_built st;
                        trace := trace st |}).

Definition increment_search_counter : M Z :=
  fun st => (inl (_global_search_count st + 1),
             {| _global_search_count := _global_search_count st + 1;
                provider_calls := provider_calls st;
                crews_built := crews_built st;
                trace := trace st |}).

Definition get_search_count : M Z :=
  fun st => (inl (_global_search_count st), st).

(** ** Search tool *)

Import Py.

Section Program.

Variable E : externals.

(** The tool object; [_run] reads nothing of it. *)
Record LinkUpSearchTool : Type := {
  name : string;
  description : string
}.

(** [LinkUpSearchTool.__init__] *)
Definition LinkUpSearchTool_init : M LinkUpSearchTool :=
  if negb (LINKUP_AVAILABLE E) then
    raise (ImportError "LinkupClient is not available. Please install linkup-sdk: pip install linkup-sdk")
  else
    ret {| name := "LinkUp Search";
           description := "Search the web for information using LinkUp and return comprehensive results (max 5 searches per session)" |}.

(** [linkup_client.search(query=..., depth=..., output_type=...)]
    followed by [str] of the answer. *)
Definition client_search (query depth output_type : string) : M string :=
  fun st =>
    let answer := linkup_search E (provider_calls st) query depth output_type in
    let ok := match answer with inl _ => true | inr _ => false end in
    (answer, {| _global_search_count := _global_search_count st;
                provider_calls := S (provider_calls st);
                crews_built := crews_built st;
                trace := LinkupSearch query depth output_type ok :: trace st |}).

(** The depth chosen at line 102 when the counter holds [current_count]. *)
Definition search_depth_at (current_count : Z) : string :=
  if (current_count + 1) mod 3 =? 0 then "deep" else "standard".

Definition limit_reached_text : string :=
  "Maximum search limit (" ++ str_of_int _max_searches ++ ") reached. Please analyze existing results.".

Definition truncation_marker (new_count : Z) (search_depth : string) : string :=
  nl ++ "... [Results truncated at 4000 chars for efficiency, search "
     ++ str_of_int new_count ++ " using " ++ search_depth ++ " depth]".

Definition result_header (new_count : Z) (search_depth : string) : string :=
  "Search " ++ str_of_int new_count ++ "/" ++ str_of_int _max_searches
            ++ " (" ++ search_depth ++ " depth):" ++ nl.

(** [LinkUpSearchTool._run] *)
Definition _run (self : LinkUpSearchTool) (query depth output_type : string) : M string :=
  if negb (LINKUP_AVAILABLE E) then
    ret "Error: LinkupClient is not available. Please install linkup-sdk: pip install linkup-sdk"
  else
    current_count <- get_search_count ;;
    if current_count >=? _max_searches then
      ret limit_reached_text
    else
      try_except
        (let api_key := getenv E "LINKUP_API_KEY" in
         if negb (truthy_opt api_key) then
           ret "Error: LINKUP_API_KEY environment variable not set"
         else
           time_sleep (3 # 2) ;;
           let search_depth := search_depth_at current_count in
           search_response <- client_search query search_depth output_type ;;
           new_count <- increment_search_counter ;;
           let response_str := search_response in
           let response_str :=
             if len response_str >? 4000 then
               slice_to 4000 response_str ++ truncation_marker new_count search_depth
             else response_str in
           ret (result_header new_count search_depth ++ response_str))
        (fun e => ret ("Error occurred while searching: " ++ exc_msg e)).

(** ** Research crew *)

Record crew : Type := {
  crew_tool : LinkUpSearchTool;
  crew_agent : agent
}.

(** Lines 140-238: [LinkUpSearchTool()], [get_llm_client()], [Agent],
    [Task] and [Crew] come from the framework and may raise. The n-th
    time they are run they raise [framework_failure E n query] if there
    is one, and otherwise give the crew that behaves as
    [crew_behaviour E n query]; [crews_built] counts the runs. *)
Definition build_crew (tool : LinkUpSearchTool) (query : string) : M crew :=
  fun st =>
    (match framework_failure E (crews_built st) query with
     | Some e => inr e
     | None => inl {| crew_tool := tool; crew_agent := crew_behaviour E (crews_built st) query |}
     end,
     {| _global_search_count := _global_search_count st;
        provider_calls := provider_calls st;
        crews_built := S (crews_built st);
        trace := trace st |}).

(** [create_research_crew] *)
Definition create_research_crew (query : string) : M crew :=
  count <- get_search_count ;;
  emit (PipelineStart query count) ;;
  if negb (LINKUP_AVAILABLE E) then
    raise (ImportError "LinkupClient is not available. Please install linkup-sdk: pip install linkup-sdk")
  else if negb (truthy_opt (getenv E "GEMINI_API_KEY")) then
    raise (ValueError "GEMINI_API_KEY environment variable not set")
  else if negb (truthy_opt (getenv E "LINKUP_API_KEY")) then
    raise (ValueError "LINKUP_API_KEY environment variable not set")
  else
    linkup_search_tool <- LinkUpSearchTool_init ;;
    build_crew linkup_search_tool query.

(** The agent at work: each tool call goes through [_run]. *)
Fixpoint run_agent (tool : LinkUpSearchTool) (a : agent) : M string :=
  match a with
  | Finish raw => ret raw
  | Crash e => raise e
  | UseTool query depth output_type k =>
      answer <- _run tool query depth output_type ;;
      run_agent tool (k answer)
  end.

(** [crew.kickoff()], giving [result.raw]. *)
Definition kickoff (c : crew) : M string :=
  run_agent (crew_tool c) (crew_agent c).

(** ** Retry controller *)

Definition max_retries : Z := 3.
Definition retry_delay : Z := 3.

Definition limited_content_text (raw : string) : string :=
  "Research completed but content seems limited. Here's what was found:" ++ nl ++ nl
    ++ raw ++ nl ++ nl
    ++ "[Note: For more comprehensive results, try refining your query or checking API limits]".

Definition rate_limited_text : string :=
  "API Rate Limited: The Gemini API is currently overloaded. Please try again in a few minutes. For comprehensive research, consider:"
    ++ nl ++ nl
    ++ "1. Breaking your query into smaller, more specific questions" ++ nl
    ++ "2. Trying again during off-peak hours" ++ nl
    ++ "3. Using more specific search terms".

Definition import_error_text (e : exn) : string :=
  "Import Error: " ++ exc_msg e ++ nl ++ "Please install linkup-sdk: pip install linkup-sdk".

Definition configuration_error_text (e : exn) : string :=
  "Configuration Error: " ++ exc_msg e.

Definition unknown_error_text (e : exn) : string :=
  "Error: " ++ exc_msg e ++ nl ++ nl
    ++ "Troubleshooting tips:" ++ nl
    ++ "1. Try simplifying your query" ++ nl
    ++ "2. Check your API key configurations" ++ nl
    ++ "3. Ensure stable internet connection" ++ nl
    ++ "4. Try breaking complex queries into smaller parts".

Definition max_retries_text : string :=
  "Maximum retries exceeded. Please try again later or contact support if the issue persists.".

(** The test of line 270 on [str(e).lower()]. *)
Definition is_rate_limit (e : exn) : bool :=
  let error_msg := lower (exc_msg e) in
  contains "overloaded" error_msg || contains "rate limit" error_msg
    || contains "quota" error_msg.

(** Lines 251-258: reset, delay between attempts, crew and kickoff. *)
Definition pipeline_attempt (query : string) (attempt : Z) : M string :=
  reset_search_counter ;;
  (if attempt >? 0 then time_sleep (inject_Z (retry_delay * attempt)) else ret tt) ;;
  c <- create_research_crew query ;;
  kickoff c.

(** The [except Exception as e] block; [None] stands for [continue]. *)
Definition handle_error (attempt : Z) (e : exn) : M (option string) :=
  if is_rate_limit e then
    if attempt <? max_retries - 1 then
      print ("Rate limit encountered, waiting " ++ str_of_int (retry_delay * (attempt + 1))
               ++ " seconds...") ;;
      time_sleep (inject_Z (retry_delay * (attempt + 1))) ;;
      ret None
    else
      ret (Some rate_limited_text)
  else if attempt <? max_retries - 1 then
    print ("Error on attempt " ++ str_of_int (attempt + 1) ++ ", retrying in "
             ++ str_of_int retry_delay ++ " seconds...") ;;
    time_sleep (inject_Z retry_delay) ;;
    ret None
  else if contains "ImportError" (exc_type e) then
    ret (Some (import_error_text e))
  else if contains "ValueError" (exc_type e) then
    ret (Some (configuration_error_text e))
  else
    ret (Some (unknown_error_text e)).

(** One iteration of the loop: [Some s] is [return s], [None] goes on
    to the next [attempt]. *)
Definition attempt_body (query : string) (attempt : Z) : M (option string) :=
  try_except
    (raw <- pipeline_attempt query attempt ;;
     if len raw <? 500 then ret (Some (limited_content_text raw))
     else ret (Some raw))
    (handle_error attempt).

(** [for attempt in attempts: body attempt], left by the first [return]. *)
Fixpoint for_each (attempts : list Z) (body : Z -> M (option string)) : M (option string) :=
  match attempts with
  | [] => ret None
  | attempt :: rest =>
      r <- body attempt ;;
      match r with
      | Some s => ret (Some s)
      | None => for_each rest body
      end
  end.

(** [range(n)] *)
Definition range (n : Z) : list Z := map Z.of_nat (seq 0 (Z.to_nat n)).

(** [run_research] *)
Definition run_research (query : string) : M string :=
  r <- for_each (range max_retries) (attempt_body query) ;;
  match r with
  | Some s => ret s
  | None => ret max_retries_text
  end.

End Program.

Definition initial_state : state :=
  {| _global_search_count := 0; provider_calls := 0; crews_built := 0; trace := [] |}.


(** ** Observations on a run *)

(** The tool exists: its constructor returned it. *)
Definition constructed (E : externals) (tool : LinkUpSearchTool) : Prop :=
  exists st0 st1, LinkUpSearchTool_init E st0 = (inl tool, st1).

(** The effects that happened between [st] and a later [st'], oldest first. *)
Definition journal (st st' : state) : list event :=
  rev (firstn (length (trace st') - length (trace st)) (trace st')).

(** Depths of the searches the provider answered, in the order of [evs]. *)
Fixpoint search_depths (evs : list event) : list string :=
  match evs with
  | [] => []
  | LinkupSearch _ depth _ true :: evs' => depth :: search_depths evs'
  | _ :: evs' => search_depths evs'
  end.

(** Depths of [n] consecutive answered searches when the counter starts at [c]. *)
Fixpoint depths_from (c : Z) (n : nat) : list string :=
  match n with
  | O => []
  | S n' => search_depth_at c :: depths_from (c + 1) n'
  end.

(** An effect of the search tool. *)
Definition tool_event (e : event) : Prop :=
  match e with
  | Sleep _ | LinkupSearch _ _ _ _ => True
  | Print _ | PipelineStart _ _ => False
  end.

(** A pipeline attempt, if this event starts one, starts on a fresh budget. *)
Definition starts_fresh (e : event) : Prop :=
  match e with
  | PipelineStart _ count => count = 0
  | _ => True
  end.

Definition is_start (e : event) : bool :=
  match e with PipelineStart _ _ => true | _ => false end.

(** The texts [run_research] returns from inside its loop. *)
Inductive returned_text : string -> Prop :=
| returned_report raw : 500 <= len raw -> returned_text raw
| returned_limited raw : len raw < 500 -> returned_text (limited_content_text raw)
| returned_rate_limited : returned_text rate_limited_text
| returned_import_error e : returned_text (import_error_text e)
| returned_configuration_error e : returned_text (configuration_error_text e)
| returned_unknown_error e : returned_text (unknown_error_text e).

(** [reached E q st0 i st]: started in [st0], the loop of [run_research]
    enters attempt [i] in state [st]. *)
Inductive reached (E : externals) (q : string) (st0 : state) : Z -> state -> Prop :=
| reached_first : reached E q st0 0 st0
| reached_retry i st st' :
    reached E q st0 i st ->
    attempt_body E q i st = (inl None, st') ->
    reached E q st0 (i + 1) st'.

(** [st] after the effects [evs] (latest first). *)
Definition logged (evs : list event) (st : state) : state :=
  {| _global_search_count := _global_search_count st;
     provider_calls := provider_calls st;
     crews_built := crews_built st;
     trace := (evs ++ trace st)%list |}.

(** [st] once an attempt has reset the counter and waited its turn:
    lines 251-255. *)
Definition entered (attempt : Z) (st : state) : state :=
  {| _global_search_count := 0;
     provider_calls := provider_calls st;
     crews_built := crews_built st;
     trace := ((if attempt >? 0 then [Sleep (inject_Z (retry_delay * attempt))] else [])
                 ++ trace st)%list |}.

(** The three ways an iteration of the loop ends. *)
Inductive iteration (E : externals) (q : string) (i : Z) (st : state) :
  option string -> state -> Prop :=
| iteration_report raw st' :
    pipeline_attempt E q i st = (inl raw, st') ->
    iteration E q i st (Some (if len raw <? 500 then limited_content_text raw else raw)) st'
| iteration_retry e st' :
    pipeline_attempt E q i st = (inr e, st') ->
    i < max_retries - 1 ->
    iteration E q i st None (snd (handle_error i e st'))
| iteration_give_up e st' text :
    pipeline_attempt E q i st = (inr e, st') ->
    max_retries - 1 <= i ->
    handle_error i e st' = (inl (Some text), st') ->
    returned_text text ->
    iteration E q i st (Some text) st'.

(** [run_from E q i st text st']: entered at attempt [i] in state [st],
    the loop returns [text] and leaves [st']. *)
Inductive run_from (E : externals) (q : string) : Z -> state -> string -> state -> Prop :=
| run_returns i st text st' :
    iteration E q i st (Some text) st' ->
    run_from E q i st text st'
| run_retries i st st1 text st' :
    iteration E q i st None st1 ->
    run_from E q (i + 1) st1 text st' ->
    run_from E q i st text st'.

(** The delay of line 255, as an effect. *)
Definition entry_delay (attempt : Z) : list event :=
  if attempt >? 0 then [Sleep (inject_Z (retry_delay * attempt))] else [].

(** The delay of the handler at [attempt]: line 273 or line 281. *)
Definition handler_delay (rate_limited : bool) (attempt : Z) : Z :=
  if rate_limited then retry_delay * (attempt + 1) else retry_delay.

(** The effects of the loop from attempt [i] on, oldest first: the
    delay, the start of the pipeline on a fresh counter, what the tool
    does and, when the attempt is retried, the handler's notice and
    delay. *)
Inductive loop_journal (q : string) : Z -> list event -> Prop :=
| journal_returns i tool_evs :
    Forall tool_event tool_evs ->
    loop_journal q i (entry_delay i ++ PipelineStart q 0 :: tool_evs)%list
| journal_retries i tool_evs line rate_limited rest :
    Forall tool_event tool_evs ->
    i < max_retries - 1 ->
    loop_journal q (i + 1) rest ->
    loop_journal q i
      (entry_delay i ++ PipelineStart q 0 :: tool_evs
         ++ Print line :: Sleep (inject_Z (handler_delay rate_limited i)) :: rest)%list.

(** Time the controller waits before each pipeline attempt: the sleeps
    since the previous attempt stopped (its handler prints first),
    summed when [create_research_crew] is entered. Sleeps while a
    pipeline runs are the tool's pacing and do not count. *)
Fixpoint waits (in_pipeline : bool) (acc : Q) (evs : list event) : list Q :=
  match evs with
  | [] => []
  | Sleep seconds :: evs' =>
      if in_pipeline then waits true acc evs' else waits false (acc + seconds)%Q evs'
  | Print _ :: evs' => waits false 0%Q evs'
  | LinkupSearch _ _ _ _ :: evs' => waits in_pipeline acc evs'
  | PipelineStart _ _ :: evs' => acc :: waits true 0%Q evs'
  end.

Definition waits_before_attempts (evs : list event) : list Q := waits false 0%Q evs.

(** ** Sample worlds *)

(** [os.getenv] over a fixed environment. *)
Definition env_with (vars : list (string * string)) (key : string) : option string :=
  option_map snd (find (fun kv => String.eqb (fst kv) key) vars).

Definition both_keys : string -> option string :=
  env_with [("GEMINI_API_KEY", "g-key"); ("LINKUP_API_KEY", "l-key")].

Definition gemini_key_only : string -> option string :=
  env_with [("GEMINI_API_KEY", "g-key")].

(** A string of [n] copies of [c]. *)
Fixpoint filler (c : ascii) (n : nat) : string :=
  match n with
  | O => EmptyString
  | S n' => String c (filler c n')
  end.

(** An agent that searches [n] times and then hands in [report]. *)
Fixpoint searcher (n : nat) (report : string) : agent :=
  match n with
  | O => Finish report
  | S n' => UseTool "topic" "standard" "searchResults" (fun _ => searcher n' report)
  end.

(** Keys present, a provider that always answers, a crew that searches
    six times and writes a long report. *)
Definition world_ok : externals :=
  {| LINKUP_AVAILABLE := true;
     getenv := both_keys;
     linkup_search := fun _ _ _ _ => inl "found";
     crew_behaviour := fun _ _ => searcher 6 (filler "r" 600);
     framework_failure := fun _ _ => None |}.

(** Keys present; the first crew raises an error of no special kind,
    the second searches twice and hands in 300 characters. *)
Definition world_short : externals :=
  {| LINKUP_AVAILABLE := true;
     getenv := both_keys;
     linkup_search := fun _ _ _ _ => inl "found";
     crew_behaviour := fun n _ =>
       match n with
       | O => Crash (Exn "<class 'RuntimeError'>" "connection reset")
       | _ => searcher 2 (filler "x" 300)
       end;
     framework_failure := fun _ _ => None |}.

(** The attempts still to run once the loop enters attempt [i]. *)
Definition attempts_from (i : Z) : list Z := skipn (Z.to_nat i) (range max_retries).

(** Provider library and language-model key present, search-provider
    key absent. *)
Definition world_no_search_key : externals :=
  {| LINKUP_AVAILABLE := true;
     getenv := gemini_key_only;
     linkup_search := fun _ _ _ _ => inl "found";
     crew_behaviour := fun _ _ => searcher 5 (filler "r" 600);
     framework_failure := fun _ _ => None |}.

(** Keys present, but every crew fails on the language model's rate limit. *)
Definition world_rate_limited : externals :=
  {| LINKUP_AVAILABLE := true;
     getenv := both_keys;
     linkup_search := fun _ _ _ _ => inl "found";
     crew_behaviour := fun _ _ =>
       UseTool "topic" "standard" "searchResults"
         (fun _ => Crash (Exn "<class 'litellm.RateLimitError'>" "Rate limit exceeded"));
     framework_failure := fun _ _ => None |}.

(** ** The retry delays and the missing-credential scenario, as the
    specification words them *)

(** Wait before fresh attempt [i] as the specification gives it:
    [retry_delay * i] after a generic failure, [retry_delay * (i + 1)]
    after a rate-limit failure. *)
Definition specified_wait (rate_limited : bool) (i : Z) : Z :=
  if rate_limited then retry_delay * (i + 1) else retry_delay * i.

Fixpoint specified_waits (i : Z) (kinds : list bool) : list Q :=
  match kinds with
  | [] => []
  | rate_limited :: kinds' =>
      inject_Z (specified_wait rate_limited i) :: specified_waits (i + 1) kinds'
  end.

(** Attempt 0 waits 0 and each later attempt waits what [specified_wait] says. *)
Definition backoff_as_specified (kinds : list bool) (ws : list Q) : Prop :=
  Forall2 Qeq ws (0%Q :: specified_waits 1 kinds).

(** Words by which a message tells its reader what to do; the messages
    of the other branches of [run_research] use several of them. *)
Definition remediation_phrases : list string :=
  ["Please"; "please"; "Troubleshooting"; "Try "; "try "; "Check "; "check ";
   "Ensure "; "ensure "; "install"; "Set "; "set the "; "set your "; "Add "; "add ";
   "Configure"; "configure"; "Provide"; "provide"; "Export"; "export";
   "Make sure"; "make sure"; "should"; "must"; "need"; "1."].

Definition gives_remediation_steps (text : string) : bool :=
  existsb (fun phrase => contains phrase text) remediation_phrases.

(** All waits before retried attempts are one and the same delay. *)
Definition fixed_delay (ws : list Q) : Prop :=
  exists d, forall (i : nat) (w : Q), (1 <= i)%nat -> nth_error ws i = Some w -> Qeq w d.

(** Scenario B as the specification words it: three attempts, a fixed
    delay between them, and a final message that names the missing
    configuration and gives remediation steps. *)
Definition missing_credential_as_specified (E : externals) (q : string) (st : state) : Prop :=
  exists text,
    fst (run_research E q st) = inl text /\
    length (filter is_start (journal st (snd (run_research E q st)))) = 3%nat /\
    fixed_delay (waits_before_attempts (journal st (snd (run_research E q st)))) /\
    contains "LINKUP_API_KEY" text = true /\
    gives_remediation_steps text = true.

(** The tool as its constructor builds it. *)
Definition built_tool : LinkUpSearchTool :=
  {| name := "LinkUp Search";
     description := "Search the web for information using LinkUp and return comprehensive results (max 5 searches per session)" |}.

(** A session that has used its five searches. *)
Definition budget_spent : state :=
  {| _global_search_count := 5; provider_calls := 5; crews_built := 1; trace := [] |}.

(** Keys present; the provider answers its first call with 4001
    characters and every later call with 4000. *)
Definition world_long : externals :=
  {| LINKUP_AVAILABLE := true;
     getenv := both_keys;
     linkup_search := fun n _ _ _ =>
       match n with
       | O => inl (filler "a" 4001)
       | _ => inl (filler "b" 4000)
       end;
     crew_behaviour := fun _ _ => searcher 2 (filler "r" 600);
     framework_failure := fun _ _ => None |}.

(** ** Further observations *)

(** A contact with the search provider, answered or not. *)
Definition is_search (e : event) : bool :=
  match e with LinkupSearch _ _ _ _ => true | _ => false end.

Definition is_print (e : event) : bool :=
  match e with Print _ => true | _ => false end.

(** Keys present, but the provider fails on every call. *)
Definition world_down : externals :=
  {| LINKUP_AVAILABLE := true;
     getenv := both_keys;
     linkup_search := fun _ _ _ _ => inr (Exn "<class 'ConnectionError'>" "provider unreachable");
     crew_behaviour := fun _ _ => searcher 6 (filler "r" 600);
     framework_failure := fun _ _ => None |}.

(** The provider library could not be imported; no key is set either. *)
Definition world_no_library : externals :=
  {| LINKUP_AVAILABLE := false;
     getenv := env_with [];
     linkup_search := fun _ _ _ _ => inl "found";
     crew_behaviour := fun _ _ => searcher 5 (filler "r" 600);
     framework_failure := fun _ _ => None |}.

(** Provider library present, no key set at all. *)
Definition world_no_keys : externals :=
  {| LINKUP_AVAILABLE := true;
     getenv := env_with [];
     linkup_search := fun _ _ _ _ => inl "found";
     crew_behaviour := fun _ _ => searcher 5 (filler "r" 600);
     framework_failure := fun _ _ => None |}.

(** Keys present; the first two crews fail on the rate limit and the
    third searches five times and hands in 600 characters. *)
Definition world_recovers : externals :=
  {| LINKUP_AVAILABLE := true;
     getenv := both_keys;
     linkup_search := fun _ _ _ _ => inl "found";
     crew_behaviour := fun n _ =>
       match n with
       | O | S O => Crash (Exn "<class 'litellm.RateLimitError'>" "Rate limit exceeded")
       | _ => searcher 5 (filler "r" 600)
       end;
     framework_failure := fun _ _ => None |}.

(** Keys and library present, but the framework cannot put a crew
    together: its constructors raise every time. *)
Definition world_framework_broken : externals :=
  {| LINKUP_AVAILABLE := true;
     getenv := both_keys;
     linkup_search := fun _ _ _ _ => inl "found";
     crew_behaviour := fun _ _ => searcher 5 (filler "r" 600);
     framework_failure := fun _ _ => Some (ImportError "cannot import name 'LLM'") |}.

(** The message of the last [else] chain of the handler, by the type
    of the exception: lines 284-289. *)
Definition final_error_text (e : exn) : string :=
  if contains "ImportError" (exc_type e) then import_error_text e
  else if contains "ValueError" (exc_type e) then configuration_error_text e
  else unknown_error_text e.

(** ** [app.py]: the word count of a report *)

Module App.

(** A character that [re.sub(r'[*#`]', '', ...)] removes. *)
Definition is_marker (c : ascii) : bool :=
  (c =? "*")%char || (c =? "#")%char || (c =? "`")%char.

(** [re.sub(r'[*#`]', '', content)] *)
Fixpoint strip_markers (s : string) : string :=
  match s with
  | EmptyString => EmptyString
  | String c s' => if is_marker c then strip_markers s' else String c (strip_markers s')
  end.

(** The longest run of characters other than [stop] at the head of
    [s], with what follows it: what a greedy negated class consumes.
    Giving back part of the run cannot help the match, since the
    pattern asks for [stop] right after it. *)
Fixpoint span_until (stop : ascii) (s : string) : string * string :=
  match s with
  | EmptyString => (EmptyString, EmptyString)
  | String c s' =>
      if (c =? stop)%char then (EmptyString, s)
      else let (run, rest) := span_until stop s' in (String c run, rest)
  end.

(** A match of the link pattern, an opening bracket, one or more
    characters other than the closing bracket (group 1), the closing
    bracket and an opening parenthesis, one or more characters other
    than the closing parenthesis, and the closing parenthesis, at the
    head of [s]: group 1 and what follows the match. *)
Definition match_link (s : string) : option (string * string) :=
  match s with
  | String "[" s1 =>
      match span_until "]" s1 with
      | (String c text, String "]" (String "(" s2)) =>
          match span_until ")" s2 with
          | (String _ _, String ")" s3) => Some (String c text, s3)
          | _ => None
          end
      | _ => None
      end
  | _ => None
  end.

(** Replacement of every match of the link pattern by its group 1,
    matches taken leftmost first and not overlapping; what replaces a
    match is not scanned again. [fuel] bounds the characters still to
    scan. *)
Fixpoint collapse_links_fuel (fuel : nat) (s : string) : string :=
  match fuel with
  | O => s
  | S fuel' =>
      match s with
      | EmptyString => EmptyString
      | String c s' =>
          match match_link s with
          | Some (text, rest) => text ++ collapse_links_fuel fuel' rest
          | None => String c (collapse_links_fuel fuel' s')
          end
      end
  end.

(** [re.sub(r'\[([^\]]+)\]\([^)]+\)', r'\1', s)] *)
Definition collapse_links (s : string) : string :=
  collapse_links_fuel (String.length s) s.

(** Whitespace for [str.split()], among the characters of the model. *)
Definition is_space (c : ascii) : bool :=
  let n := nat_of_ascii c in
  ((9 <=? n) && (n <=? 13) || (28 <=? n) && (n <=? 32) || (n =? 133) || (n =? 160))%nat.

(** [s.split()] with [word] the word being read. *)
Fixpoint split_from (word : string) (s : string) : list string :=
  match s with
  | EmptyString => match word with EmptyString => [] | _ => [word] end
  | String c s' =>
      if is_space c then
        match word with
        | EmptyString => split_from EmptyString s'
        | _ => word :: split_from EmptyString s'
        end
      else split_from (word ++ String c EmptyString) s'
  end.

(** [s.split()] *)
Definition split (s : string) : list string := split_from EmptyString s.

(** [estimate_word_count] *)
Definition estimate_word_count (content : string) : Z :=
  let clean_content := strip_markers content in
  let clean_content := collapse_links clean_content in
  let words := split clean_content in
  Z.of_nat (length words).

(** [c] occurs in [s]. *)
Fixpoint occurs (c : ascii) (s : string) : bool :=
  match s with
  | EmptyString => false
  | String c' s' => (c' =? c)%char || occurs c s'
  end.

(** No character of [s] is one that [strip_markers] removes. *)
Fixpoint unmarked (s : string) : bool :=
  match s with
  | EmptyString => true
  | String c s' => negb (is_marker c) && unmarked s'
  end.

(** Every character of [s] is whitespace or a marker. *)
Fixpoint blank (s : string) : bool :=
  match s with
  | EmptyString => true
  | String c s' => (is_space c || is_marker c) && blank s'
  end.

(** ** [app.py]: the story of the PDF report *)










End App.
(** * Properties *)

(** ** Strings *)

Lemma len_nonneg (s : string) : 0 <= len s.
Proof. unfold len. lia. Qed.

Lemma length_append (s1 s2 : string) :
  String.length (s1 ++ s2) = (String.length s1 + String.length s2)%nat.
Proof. induction s1 as [|c s1 IH]; simpl; [reflexivity | now rewrite IH]. Qed.

Lemma append_assoc (s1 s2 s3 : string) : (s1 ++ s2) ++ s3 = s1 ++ s2 ++ s3.
Proof. induction s1 as [|c s1 IH]; simpl; [reflexivity | now rewrite IH]. Qed.

Lemma prefix_append (s1 s2 : string) : prefix s1 (s1 ++ s2) = true.
Proof.
  induction s1 as [|c s1 IH]; simpl.
  - now destruct s2.
  - destruct (ascii_dec c c) as [_|Hc]; [exact IH | now elim Hc].
Qed.

Lemma prefix_contains (sub s : string) :
  prefix sub s = true -> contains sub s = true.
Proof. intros H. destruct s; cbn [contains]; rewrite H; reflexivity. Qed.

Lemma contains_append (sub before after : string) :
  contains sub (before ++ sub ++ after) = true.
Proof.
  induction before as [|c before IH].
  - change (EmptyString ++ sub ++ after) with (sub ++ after).
    apply prefix_contains, prefix_append.
  - cbn [append contains]. rewrite IH. apply orb_true_r.
Qed.

Lemma contains_skip (sub before s : string) :
  contains sub s = true -> contains sub (before ++ s) = true.
Proof.
  intros H. induction before as [|c before IH]; [exact H|].
  cbn [append contains]. rewrite IH. apply orb_true_r.
Qed.

Lemma slice_to_length (n : nat) (s : string) :
  (n <= String.length s)%nat -> String.length (slice_to n s) = n.
Proof.
  unfold slice_to. revert s.
  induction n as [|n IH]; intros s Hn.
  - now destruct s.
  - destruct s as [|c s]; simpl in *; [lia|].
    rewrite IH; [reflexivity | lia].
Qed.

Lemma slice_to_prefix (n : nat) (s : string) :
  exists rest, s = slice_to n s ++ rest.
Proof.
  unfold slice_to. revert s.
  induction n as [|n IH]; intros s.
  - exists s. now destruct s.
  - destruct s as [|c s]; simpl.
    + now exists EmptyString.
    + destruct (IH s) as [rest Hrest]. exists rest. now rewrite <- Hrest.
Qed.

(** ** The search tool, case by case *)

Section ToolFacts.

Variable E : externals.

Lemma constructed_available (tool : LinkUpSearchTool) :
  constructed E tool -> LINKUP_AVAILABLE E = true.
Proof.
  intros (st0 & st1 & H). unfold LinkUpSearchTool_init in H.
  destruct (LINKUP_AVAILABLE E); [reflexivity | discriminate H].
Qed.

Lemma available_constructed :
  LINKUP_AVAILABLE E = true -> exists tool, constructed E tool.
Proof.
  intros H. eexists. exists initial_state, initial_state.
  unfold LinkUpSearchTool_init. rewrite H. reflexivity.
Qed.

Lemma run_unavailable tool q d o st :
  LINKUP_AVAILABLE E = false ->
  _run E tool q d o st =
    (inl "Error: LinkupClient is not available. Please install linkup-sdk: pip install linkup-sdk", st).
Proof. intros H. unfold _run. rewrite H. reflexivity. Qed.

Lemma run_limit tool q d o st :
  LINKUP_AVAILABLE E = true ->
  _max_searches <= _global_search_count st ->
  _run E tool q d o st = (inl limit_reached_text, st).
Proof.
  intros Ha Hc. unfold _run, bind, get_search_count. rewrite Ha. simpl.
  destruct (_global_search_count st >=? _max_searches) eqn:Hge; [reflexivity|].
  rewrite Z.geb_leb in Hge. apply Z.leb_gt in Hge. lia.
Qed.

Lemma run_no_key tool q d o st :
  LINKUP_AVAILABLE E = true ->
  _global_search_count st < _max_searches ->
  truthy_opt (getenv E "LINKUP_API_KEY") = false ->
  _run E tool q d o st = (inl "Error: LINKUP_API_KEY environment variable not set", st).
Proof.
  intros Ha Hc Hk. unfold _run, bind, get_search_count, try_except. rewrite Ha. simpl.
  destruct (_global_search_count st >=? _max_searches) eqn:Hge.
  - apply Z.geb_le in Hge. lia.
  - rewrite Hk. reflexivity.
Qed.

Lemma run_provider_error tool q d o st e :
  LINKUP_AVAILABLE E = true ->
  _global_search_count st < _max_searches ->
  truthy_opt (getenv E "LINKUP_API_KEY") = true ->
  linkup_search E (provider_calls st) q (search_depth_at (_global_search_count st)) o = inr e ->
  _run E tool q d o st =
    (inl ("Error occurred while searching: " ++ exc_msg e),
     {| _global_search_count := _global_search_count st;
        provider_calls := S (provider_calls st);
        crews_built := crews_built st;
        trace := LinkupSearch q (search_depth_at (_global_search_count st)) o false
                   :: Sleep (3 # 2) :: trace st |}).
Proof.
  intros Ha Hc Hk Hp.
  unfold _run, bind, get_search_count, try_except, time_sleep, emit, client_search.
  rewrite Ha. simpl.
  destruct (_global_search_count st >=? _max_searches) eqn:Hge.
  - apply Z.geb_le in Hge. lia.
  - rewrite Hk. simpl. rewrite Hp. reflexivity.
Qed.

Lemma run_provider_answer tool q d o st s :
  LINKUP_AVAILABLE E = true ->
  _global_search_count st < _max_searches ->
  truthy_opt (getenv E "LINKUP_API_KEY") = true ->
  linkup_search E (provider_calls st) q (search_depth_at (_global_search_count st)) o = inl s ->
  _run E tool q d o st =
    (let new_count := _global_search_count st + 1 in
     let search_depth := search_depth_at (_global_search_count st) in
     inl (result_header new_count search_depth ++
          (if len s >? 4000
           then slice_to 4000 s ++ truncation_marker new_count search_depth
           else s)),
     {| _global_search_count := _global_search_count st + 1;
        provider_calls := S (provider_calls st);
        crews_built := crews_built st;
        trace := LinkupSearch q (search_depth_at (_global_search_count st)) o true
                   :: Sleep (3 # 2) :: trace st |}).
Proof.
  intros Ha Hc Hk Hp.
  unfold _run, bind, get_search_count, try_except, time_sleep, emit, client_search.
  rewrite Ha. simpl.
  destruct (_global_search_count st >=? _max_searches) eqn:Hge.
  - apply Z.geb_le in Hge. lia.
  - rewrite Hk. simpl. rewrite Hp. simpl.
    destruct (len s >? 4000); reflexivity.
Qed.

End ToolFacts.

(** ** Journal *)

Lemma journal_extends (st st' : state) (evs : list event) :
  trace st' = (evs ++ trace st)%list -> journal st st' = rev evs.
Proof.
  intros H. unfold journal. rewrite H, length_app.
  replace (length evs + length (trace st) - length (trace st))%nat with (length evs) by lia.
  rewrite firstn_app, Nat.sub_diag, firstn_all. simpl. now rewrite app_nil_r.
Qed.

Lemma journal_same (st : state) : journal st st = [].
Proof. apply (journal_extends st st []). reflexivity. Qed.

(** What one call of the tool leaves behind. *)
Lemma run_outcome E tool q d o st :
  exists text st',
    _run E tool q d o st = (inl text, st') /\
    crews_built st' = crews_built st /\
    ((st' = st) \/
     (exists ok,
        trace st' = LinkupSearch q (search_depth_at (_global_search_count st)) o ok
                      :: Sleep (3 # 2) :: trace st /\
        _global_search_count st < _max_searches /\
        _global_search_count st' =
          (if ok then _global_search_count st + 1 else _global_search_count st))).
Proof.
  destruct (LINKUP_AVAILABLE E) eqn:Ha.
  2:{ eexists _, st. rewrite run_unavailable by exact Ha. auto. }
  destruct (Z_lt_ge_dec (_global_search_count st) _max_searches) as [Hc|Hc].
  2:{ eexists _, st. rewrite run_limit by (auto; lia). auto. }
  destruct (truthy_opt (getenv E "LINKUP_API_KEY")) eqn:Hk.
  2:{ eexists _, st. rewrite run_no_key by auto. auto. }
  destruct (linkup_search E (provider_calls st) q
              (search_depth_at (_global_search_count st)) o) as [s|e] eqn:Hp.
  - eexists _, _. rewrite (run_provider_answer E tool q d o st s) by auto.
    split; [reflexivity|]. split; [reflexivity|]. right. exists true. simpl. auto.
  - eexists _, _. rewrite (run_provider_error E tool q d o st e) by auto.
    split; [reflexivity|]. split; [reflexivity|]. right. exists false. simpl. auto.
Qed.

(** ** Claims on the search tool *)

(** C3. Once the session counter has reached the maximum (5), a further
    call of the search tool returns the soft-limit text (it does not
    raise) and leaves the whole state as it was: the counter keeps its
    value and neither the pacing delay nor the provider is reached. *)
Theorem search_limit_soft_stop E tool q d o st
  (Htool : constructed E tool)
  (Hfull : _max_searches <= _global_search_count st) :
  _run E tool q d o st = (inl limit_reached_text, st) /\
  limit_reached_text = "Maximum search limit (5) reached. Please analyze existing results." /\
  journal st (snd (_run E tool q d o st)) = [].
Proof.
  rewrite run_limit by eauto using constructed_available.
  repeat split. apply journal_same.
Qed.

Lemma search_limit_soft_stop_witness :
  _max_searches <= _global_search_count budget_spent /\
  _run world_ok built_tool "sixth search" "deep" "searchResults" budget_spent
    = (inl "Maximum search limit (5) reached. Please analyze existing results.",
       budget_spent).
Proof.
  split; [discriminate|].
  apply (search_limit_soft_stop world_ok built_tool "sixth search" "deep"
           "searchResults" budget_spent).
  - exists initial_state, initial_state. reflexivity.
  - discriminate.
Defined.

(** C5. A provider answer longer than 4000 characters comes back as its
    first 4000 characters followed by a non-empty marker that notes the
    truncation, the sequence number and the depth used; an answer of at
    most 4000 characters is included untouched. *)
Theorem truncation_rule E tool q d o st s
  (Htool : constructed E tool)
  (Hbudget : _global_search_count st < _max_searches)
  (Hkey : truthy_opt (getenv E "LINKUP_API_KEY") = true)
  (Hanswer : linkup_search E (provider_calls st) q
               (search_depth_at (_global_search_count st)) o = inl s) :
  let n := _global_search_count st + 1 in
  let depth_used := search_depth_at (_global_search_count st) in
  let marker := truncation_marker n depth_used in
  (4000 < len s ->
     fst (_run E tool q d o st)
       = inl (result_header n depth_used ++ slice_to 4000 s ++ marker)
     /\ len (slice_to 4000 s) = 4000
     /\ (exists rest, s = slice_to 4000 s ++ rest)
     /\ marker <> ""
     /\ contains "truncated" marker = true
     /\ contains (str_of_int n) marker = true
     /\ contains depth_used marker = true)
  /\
  (len s <= 4000 ->
     fst (_run E tool q d o st) = inl (result_header n depth_used ++ s)).
Proof.
  intros n depth_used marker.
  rewrite (run_provider_answer E tool q d o st s)
    by eauto using constructed_available.
  cbv zeta. fold n depth_used marker. cbn [fst].
  split; intros Hlen.
  - assert (Hgt : (len s >? 4000) = true) by (apply Z.gtb_lt; lia).
    rewrite Hgt. split; [reflexivity|].
    split.
    { unfold len in *. rewrite slice_to_length; lia. }
    split; [apply slice_to_prefix|].
    split; [unfold marker, truncation_marker, nl; simpl; discriminate|].
    unfold marker, truncation_marker.
    split; [|split].
    + apply (contains_append "truncated" (nl ++ "... [Results ")
               (" at 4000 chars for efficiency, search " ++ str_of_int n
                  ++ " using " ++ depth_used ++ " depth]")).
    + apply (contains_append (str_of_int n)
               (nl ++ "... [Results truncated at 4000 chars for efficiency, search ")
               (" using " ++ depth_used ++ " depth]")).
    + do 4 apply contains_skip.
      apply (contains_append depth_used "" " depth]").
  - assert (Hle : (len s >? 4000) = false).
    { destruct (len s >? 4000) eqn:Hg; [apply Z.gtb_lt in Hg; lia | reflexivity]. }
    rewrite Hle. reflexivity.
Qed.

Lemma truncation_rule_witness :
  len (filler "a" 4001) = 4001 /\
  fst (_run world_long built_tool "topic" "standard" "searchResults" initial_state)
    = inl (result_header 1 "standard" ++ slice_to 4000 (filler "a" 4001)
             ++ truncation_marker 1 "standard") /\
  slice_to 4000 (filler "a" 4001) = filler "a" 4000.
Proof.
  split; [vm_compute; reflexivity|]. split; [|vm_compute; reflexivity].
  apply (truncation_rule world_long built_tool "topic" "standard" "searchResults"
           initial_state (filler "a" 4001)).
  - exists initial_state, initial_state. reflexivity.
  - reflexivity.
  - reflexivity.
  - reflexivity.
  - vm_compute. reflexivity.
Defined.

(** A provider answer of exactly 4000 characters is returned whole. *)
Example exactly_4000_untouched :
  fst (_run world_long built_tool "topic" "standard" "searchResults"
         (snd (_run world_long built_tool "topic" "standard" "searchResults" initial_state)))
  = inl (result_header 2 "standard" ++ filler "b" 4000).
Proof. vm_compute. reflexivity. Qed.

(** C9. The depth a caller passes to the search tool has no effect: two
    calls that differ only in that argument return the same text and
    leave the same state, and a search that reaches the provider carries
    the depth derived from the session counter. *)
Theorem depth_argument_ignored E tool q d1 d2 o st :
  _run E tool q d1 o st = _run E tool q d2 o st /\
  (forall q' d' o' ok,
      In (LinkupSearch q' d' o' ok) (journal st (snd (_run E tool q d1 o st))) ->
      d' = search_depth_at (_global_search_count st)).
Proof.
  split; [reflexivity|].
  intros q' d' o' ok Hin.
  destruct (run_outcome E tool q d1 o st) as (text & st' & Hrun & _ & [Hst | (ok' & Htr & _)]).
  - rewrite Hrun in Hin. cbn [snd] in Hin. subst st'.
    rewrite journal_same in Hin. destruct Hin.
  - rewrite Hrun in Hin. cbn [snd] in Hin.
    rewrite (journal_extends st st' [_; _] Htr) in Hin. simpl in Hin.
    destruct Hin as [H | [H | []]]; [discriminate H | now inversion H].
Qed.

Lemma depth_argument_ignored_witness :
  In (LinkupSearch "topic" "standard" "searchResults" true)
     (journal initial_state
        (snd (_run world_ok built_tool "topic" "deep" "searchResults" initial_state))) /\
  "standard" = search_depth_at (_global_search_count initial_state).
Proof.
  assert (Hin : In (LinkupSearch "topic" "standard" "searchResults" true)
                  (journal initial_state
                     (snd (_run world_ok built_tool "topic" "deep" "searchResults"
                             initial_state))))
    by (right; left; reflexivity).
  split; [exact Hin|].
  exact (proj2 (depth_argument_ignored world_ok built_tool "topic" "deep" "standard"
                  "searchResults" initial_state)
           "topic" "standard" "searchResults" true Hin).
Defined.

(** ** The agent's searches *)

Lemma search_depths_app (l1 l2 : list event) :
  search_depths (l1 ++ l2)%list = (search_depths l1 ++ search_depths l2)%list.
Proof.
  induction l1 as [|e l1 IH]; [reflexivity|].
  destruct e as [| | ? ? ? [|] |]; simpl; now rewrite IH.
Qed.

Lemma depths_from_length (c : Z) (n : nat) : length (depths_from c n) = n.
Proof. revert c. induction n as [|n IH]; intros c; simpl; [reflexivity | now rewrite IH]. Qed.

Lemma depths_from_nth (n : nat) : forall (c : Z) (k : nat) (d : string),
  nth_error (depths_from c n) k = Some d -> d = search_depth_at (c + Z.of_nat k).
Proof.
  induction n as [|n IH]; intros c k d H.
  - destruct k; discriminate H.
  - destruct k as [|k]; simpl in H.
    + inversion H. f_equal. lia.
    + apply IH in H. rewrite H. f_equal. lia.
Qed.

Lemma run_agent_use_tool E tool q d o k st text st1 :
  _run E tool q d o st = (inl text, st1) ->
  run_agent E tool (UseTool q d o k) st = run_agent E tool (k text) st1.
Proof. intros H. cbn [run_agent]. unfold bind. rewrite H. reflexivity. Qed.

(** Whatever the agent does, the searches the provider answers follow
    the counter, and the counter stays within the budget. *)
Lemma run_agent_depths E tool (a : agent) : forall st,
  exists evs n,
    trace (snd (run_agent E tool a st)) = (evs ++ trace st)%list /\
    Forall tool_event evs /\
    search_depths (rev evs) = depths_from (_global_search_count st) n /\
    _global_search_count (snd (run_agent E tool a st))
      = _global_search_count st + Z.of_nat n /\
    (n = 0%nat \/ _global_search_count (snd (run_agent E tool a st)) <= _max_searches) /\
    crews_built (snd (run_agent E tool a st)) = crews_built st.
Proof.
  induction a as [raw | e | q d o k IH]; intros st.
  - exists [], 0%nat. simpl. repeat split; auto; lia.
  - exists [], 0%nat. simpl. repeat split; auto; lia.
  - destruct (run_outcome E tool q d o st)
      as (text & st1 & Hrun & Hcrews & [Hst | (ok & Htr & Hlt & Hcount)]);
      rewrite (run_agent_use_tool E tool q d o k st text st1 Hrun).
    + subst st1. apply IH.
    + destruct (IH text st1) as (evs & n & Hevs & Htool & Hds & Hc & Hb & Hcb).
      set (st2 := snd (run_agent E tool (k text) st1)) in *.
      exists (evs ++ [LinkupSearch q (search_depth_at (_global_search_count st)) o ok;
                      Sleep (3 # 2)])%list.
      destruct ok.
      * exists (S n). rewrite Hevs, Htr, <- app_assoc. split; [reflexivity|].
        split. { apply Forall_app. split; [exact Htool | repeat constructor]. }
        rewrite rev_app_distr. cbn [rev app search_depths depths_from].
        rewrite Hds, Hcount. split; [reflexivity|].
        rewrite Hc, Hcount, Hcb, Hcrews.
        split; [lia|]. split; [|reflexivity].
        right. destruct Hb as [Hn | Hle]; [subst n; lia|].
        rewrite Hc, Hcount in Hle. lia.
      * exists n. rewrite Hevs, Htr, <- app_assoc. split; [reflexivity|].
        split. { apply Forall_app. split; [exact Htool | repeat constructor]. }
        rewrite rev_app_distr. cbn [rev app search_depths].
        rewrite Hds, Hcount. split; [reflexivity|].
        rewrite Hc, Hcount, Hcb, Hcrews.
        split; [lia|]. split; [|reflexivity].
        destruct Hb as [Hn | Hle]; [left; exact Hn | right].
        rewrite Hc, Hcount in Hle. lia.
Qed.

(** C2. Within one session (counter at 0 when it starts) the searches
    the provider answers number at most 5, and the k-th of them
    (1-indexed) is issued with deep depth iff k mod 3 = 0 and with
    standard depth otherwise; five of them use standard, standard, deep,
    standard, standard. *)
Theorem depth_schedule E tool (a : agent) (st : state)
  (Hfresh : _global_search_count st = 0) :
  let ds := search_depths (journal st (snd (run_agent E tool a st))) in
  (length ds <= 5)%nat /\
  (forall (k : nat) (d : string),
      (1 <= k)%nat ->
      nth_error ds (k - 1) = Some d ->
      d = if Z.of_nat k mod 3 =? 0 then "deep" else "standard") /\
  (length ds = 5%nat -> ds = ["standard"; "standard"; "deep"; "standard"; "standard"]).
Proof.
  destruct (run_agent_depths E tool a st) as (evs & n & Hevs & _ & Hds & Hc & Hb & _).
  cbv zeta. rewrite (journal_extends _ _ _ Hevs), Hds, Hfresh, depths_from_length.
  assert (Hn : (n <= 5)%nat).
  { destruct Hb as [-> | Hle]; [lia|]. rewrite Hc, Hfresh in Hle.
    unfold _max_searches in Hle. lia. }
  repeat split.
  - exact Hn.
  - intros k d Hk Hnth. apply depths_from_nth in Hnth. rewrite Hnth.
    unfold search_depth_at. replace (0 + Z.of_nat (k - 1) + 1) with (Z.of_nat k) by lia.
    reflexivity.
  - intros ->. reflexivity.
Qed.

Lemma depth_schedule_witness :
  _global_search_count initial_state = 0 /\
  search_depths (journal initial_state
                   (snd (run_agent world_ok
                           {| name := "LinkUp Search"; description := "" |}
                           (searcher 6 "done") initial_state)))
    = ["standard"; "standard"; "deep"; "standard"; "standard"].
Proof.
  split; [reflexivity|].
  apply (depth_schedule world_ok _ (searcher 6 "done") initial_state eq_refl).
  reflexivity.
Defined.

(** ** The retry controller, step by step *)

Section ControllerFacts.

Variable E : externals.
Variable q : string.

Lemma create_research_crew_eq (st : state) :
  create_research_crew E q st =
    let st1 := logged [PipelineStart q (_global_search_count st)] st in
    if negb (LINKUP_AVAILABLE E) then
      (inr (ImportError "LinkupClient is not available. Please install linkup-sdk: pip install linkup-sdk"), st1)
    else if negb (truthy_opt (getenv E "GEMINI_API_KEY")) then
      (inr (ValueError "GEMINI_API_KEY environment variable not set"), st1)
    else if negb (truthy_opt (getenv E "LINKUP_API_KEY")) then
      (inr (ValueError "LINKUP_API_KEY environment variable not set"), st1)
    else
      (match framework_failure E (crews_built st) q with
       | Some e => inr e
       | None =>
           inl {| crew_tool := {| name := "LinkUp Search";
                                  description := "Search the web for information using LinkUp and return comprehensive results (max 5 searches per session)" |};
                  crew_agent := crew_behaviour E (crews_built st) q |}
       end,
       {| _global_search_count := _global_search_count st;
          provider_calls := provider_calls st;
          crews_built := S (crews_built st);
          trace := PipelineStart q (_global_search_count st) :: trace st |}).
Proof.
  unfold create_research_crew, bind, get_search_count, emit, LinkUpSearchTool_init,
    build_crew, logged.
  cbv zeta. cbn [app].
  destruct (LINKUP_AVAILABLE E); cbn [negb]; [|reflexivity].
  destruct (truthy_opt (getenv E "GEMINI_API_KEY")); cbn [negb]; [|reflexivity].
  destruct (truthy_opt (getenv E "LINKUP_API_KEY")); cbn [negb]; reflexivity.
Qed.

(** An attempt runs its crew on a counter reset to 0, after the delay
    of line 255 and nothing else. *)
Lemma pipeline_attempt_eq (i : Z) (st : state) :
  pipeline_attempt E q i st =
    (c <- create_research_crew E q ;; kickoff E c) (entered i st).
Proof.
  unfold pipeline_attempt, bind at 1 2, reset_search_counter, entered.
  destruct (i >? 0); reflexivity.
Qed.

(** The effects of one attempt's pipeline: the delay, the start on a
    fresh counter, then only what the search tool does. *)
Lemma pipeline_attempt_trace (i : Z) (st : state) :
  exists evs,
    trace (snd (pipeline_attempt E q i st))
      = (evs ++ PipelineStart q 0 :: trace (entered i st))%list /\
    Forall tool_event evs.
Proof.
  rewrite pipeline_attempt_eq. unfold bind. rewrite create_research_crew_eq. cbv zeta.
  destruct (negb (LINKUP_AVAILABLE E)); [exists []; split; [reflexivity | constructor]|].
  destruct (negb (truthy_opt (getenv E "GEMINI_API_KEY")));
    [exists []; split; [reflexivity | constructor]|].
  destruct (negb (truthy_opt (getenv E "LINKUP_API_KEY")));
    [exists []; split; [reflexivity | constructor]|].
  destruct (framework_failure E (crews_built (entered i st)) q);
    [exists []; split; [reflexivity | constructor]|].
  unfold kickoff. cbn [crew_tool crew_agent].
  match goal with
  | |- context [run_agent E ?tool ?a ?s] =>
      destruct (run_agent_depths E tool a s) as (evs & n & Hevs & Htool & _)
  end.
  exists evs. split; [|exact Htool].
  match goal with
  | |- trace (snd ?x) = _ => destruct x as [[raw | e] st'] eqn:Hx
  end; cbn [snd] in *; exact Hevs.
Qed.

Lemma handle_error_retry (i : Z) (e : exn) (st : state) :
  i < max_retries - 1 ->
  handle_error i e st =
    (inl None,
     if is_rate_limit e then
       logged [Sleep (inject_Z (retry_delay * (i + 1)));
               Print ("Rate limit encountered, waiting "
                        ++ str_of_int (retry_delay * (i + 1)) ++ " seconds...")] st
     else
       logged [Sleep (inject_Z retry_delay);
               Print ("Error on attempt " ++ str_of_int (i + 1) ++ ", retrying in "
                        ++ str_of_int retry_delay ++ " seconds...")] st).
Proof.
  intros Hi. unfold handle_error.
  assert (Hlt : (i <? max_retries - 1) = true) by (apply Z.ltb_lt; exact Hi).
  rewrite Hlt. destruct (is_rate_limit e); reflexivity.
Qed.

Lemma handle_error_last (i : Z) (e : exn) (st : state) :
  max_retries - 1 <= i ->
  exists text, handle_error i e st = (inl (Some text), st) /\ returned_text text.
Proof.
  intros Hi. unfold handle_error.
  assert (Hlt : (i <? max_retries - 1) = false) by (apply Z.ltb_ge; exact Hi).
  rewrite Hlt. destruct (is_rate_limit e).
  - eexists. split; [reflexivity | apply returned_rate_limited].
  - destruct (contains "ImportError" (exc_type e)).
    + eexists. split; [reflexivity | apply returned_import_error].
    + destruct (contains "ValueError" (exc_type e)); eexists.
      * split; [reflexivity | apply returned_configuration_error].
      * split; [reflexivity | apply returned_unknown_error].
Qed.

Lemma attempt_body_iteration (i : Z) (st : state) :
  exists r st', attempt_body E q i st = (inl r, st') /\ iteration E q i st r st'.
Proof.
  unfold attempt_body, try_except, bind.
  destruct (pipeline_attempt E q i st) as [[raw | e] st'] eqn:Hp.
  - exists (Some (if len raw <? 500 then limited_content_text raw else raw)), st'.
    split; [destruct (len raw <? 500); reflexivity | now constructor].
  - destruct (Z_lt_ge_dec i (max_retries - 1)) as [Hi | Hi].
    + exists None, (snd (handle_error i e st')).
      split; [rewrite handle_error_retry by exact Hi; reflexivity | now econstructor].
    + destruct (handle_error_last i e st') as (text & Hh & Ht); [lia|].
      exists (Some text), st'. split; [exact Hh | econstructor; eauto; lia].
Qed.

Lemma iteration_returned (i : Z) (st st' : state) (text : string) :
  iteration E q i st (Some text) st' -> returned_text text.
Proof.
  inversion 1; subst; [|assumption].
  destruct (len raw <? 500) eqn:Hlen.
  - apply returned_limited. now apply Z.ltb_lt.
  - apply returned_report. now apply Z.ltb_ge.
Qed.

Lemma iteration_continues (i : Z) (st st' : state) :
  iteration E q i st None st' -> i < max_retries - 1.
Proof. inversion 1; subst; assumption. Qed.

End ControllerFacts.

(** ** The loop of [run_research] *)

Section LoopFacts.

Variable E : externals.
Variable q : string.

Lemma for_each_step (i : Z) (rest : list Z) :
  (forall st0 st1, iteration E q i st0 None st1 ->
     exists text st', for_each rest (attempt_body E q) st1 = (inl (Some text), st') /\
                      run_from E q (i + 1) st1 text st') ->
  forall st, exists text st',
    for_each (i :: rest) (attempt_body E q) st = (inl (Some text), st') /\
    run_from E q i st text st'.
Proof.
  intros Hrest st. cbn [for_each]. unfold bind.
  destruct (attempt_body_iteration E q i st) as (r & st1 & Hbody & Hiter).
  rewrite Hbody. destruct r as [text|].
  - exists text, st1. split; [reflexivity | now apply run_returns].
  - destruct (Hrest st st1 Hiter) as (text & st' & Hloop & Hrun).
    exists text, st'. split; [exact Hloop | now apply run_retries with st1].
Qed.

(** The loop always leaves through a [return] of one of its iterations. *)
Lemma loop_returns (st : state) :
  exists text st',
    for_each (range max_retries) (attempt_body E q) st = (inl (Some text), st') /\
    run_from E q 0 st text st'.
Proof.
  change (range max_retries) with [0; 1; 2].
  apply for_each_step. intros st0 st1 _.
  apply (for_each_step 1 [2]). intros st1' st2 _.
  apply (for_each_step 2 []). intros st2' st3 Hiter.
  apply iteration_continues in Hiter. unfold max_retries in Hiter. lia.
Qed.

Lemma run_research_run (st : state) :
  exists text st',
    run_research E q st = (inl text, st') /\ run_from E q 0 st text st'.
Proof.
  destruct (loop_returns st) as (text & st' & Hloop & Hrun).
  exists text, st'. split; [|exact Hrun].
  unfold run_research, bind. rewrite Hloop. reflexivity.
Qed.

Lemma run_from_returned i st text st' :
  run_from E q i st text st' -> returned_text text.
Proof.
  induction 1 as [i st text st' Hiter | i st st1 text st' Hiter Hrun IH];
    [eapply iteration_returned; eassumption | exact IH].
Qed.

Lemma entered_trace (i : Z) (st : state) :
  trace (entered i st) = (entry_delay i ++ trace st)%list.
Proof. reflexivity. Qed.

Lemma rev_entry_delay (i : Z) : rev (entry_delay i) = entry_delay i.
Proof. unfold entry_delay. destruct (i >? 0); reflexivity. Qed.

(** The effects of one iteration, latest first. *)
Lemma iteration_trace i st r st' :
  iteration E q i st r st' ->
  exists evs,
    Forall tool_event evs /\
    match r with
    | Some _ =>
        trace st' = (evs ++ PipelineStart q 0 :: entry_delay i ++ trace st)%list
    | None =>
        exists line rate_limited,
          trace st' = (Sleep (inject_Z (handler_delay rate_limited i)) :: Print line
                         :: evs ++ PipelineStart q 0 :: entry_delay i ++ trace st)%list
    end.
Proof.
  intros Hiter.
  destruct (pipeline_attempt_trace E q i st) as (evs & Hevs & Htool).
  rewrite entered_trace in Hevs.
  exists evs. split; [exact Htool|].
  inversion Hiter as [raw st1 Hp | e st1 Hp Hi | e st1 text Hp Hi Hh Ht]; subst.
  - rewrite Hp in Hevs. exact Hevs.
  - rewrite Hp in Hevs. cbn [snd] in Hevs.
    rewrite handle_error_retry by exact Hi. cbn [snd].
    destruct (is_rate_limit e).
    + eexists _, true. unfold logged. cbn [trace app handler_delay]. now rewrite Hevs.
    + eexists _, false. unfold logged. cbn [trace app handler_delay]. now rewrite Hevs.
  - rewrite Hp in Hevs. exact Hevs.
Qed.

(** The effects of the loop from attempt [i] on, in order. *)
Lemma run_from_journal i st text st' :
  run_from E q i st text st' ->
  exists chron, journal st st' = chron /\ trace st' = (rev chron ++ trace st)%list /\
                loop_journal q i chron.
Proof.
  induction 1 as [i st text st' Hiter | i st st1 text st' Hiter Hrun IH].
  - destruct (iteration_trace _ _ _ _ Hiter) as (evs & Htool & Htr).
    assert (Hshape : trace st'
              = (rev (entry_delay i ++ PipelineStart q 0 :: rev evs) ++ trace st)%list).
    { rewrite Htr, rev_app_distr. cbn [rev]. rewrite rev_involutive, rev_entry_delay.
      now rewrite <- !app_assoc. }
    eexists. split; [|split; [exact Hshape|]].
    + rewrite (journal_extends _ _ _ Hshape). apply rev_involutive.
    + apply journal_returns. now apply Forall_rev.
  - destruct (iteration_trace _ _ _ _ Hiter) as (evs & Htool & line & rl & Htr).
    destruct IH as (rest & _ & Hrest & Hloop).
    assert (Hshape : trace st'
              = (rev (entry_delay i ++ PipelineStart q 0 :: rev evs
                        ++ Print line :: Sleep (inject_Z (handler_delay rl i)) :: rest)
                   ++ trace st)%list).
    { rewrite Hrest, Htr, rev_app_distr. cbn [rev]. rewrite rev_app_distr. cbn [rev].
      rewrite rev_involutive, rev_entry_delay.
      rewrite <- !app_assoc. cbn [app]. rewrite <- ?app_assoc. reflexivity. }
    eexists. split; [|split; [exact Hshape|]].
    + rewrite (journal_extends _ _ _ Hshape). apply rev_involutive.
    + apply journal_retries; [now apply Forall_rev | | exact Hloop].
      now apply iteration_continues in Hiter.
Qed.

End LoopFacts.

(** ** Claims on the retry controller *)

Lemma returned_text_not_fallback (text : string) :
  returned_text text -> text <> max_retries_text.
Proof.
  intros H Heq. destruct H as [raw Hlen | raw Hlen | | e | e | e].
  - subst raw. vm_compute in Hlen. now apply Hlen.
  - unfold limited_content_text in Heq. cbn in Heq. discriminate Heq.
  - vm_compute in Heq. discriminate Heq.
  - unfold import_error_text in Heq. cbn in Heq. discriminate Heq.
  - unfold configuration_error_text in Heq. cbn in Heq. discriminate Heq.
  - unfold unknown_error_text in Heq. cbn in Heq. discriminate Heq.
Qed.

(** C1. For every query and in every world, [run_research] returns a
    string; no exception passes its boundary. The string is the report,
    the limited-content message, the rate-limit message or one of the
    three error messages. *)
Theorem run_research_always_returns E q st :
  exists text st',
    run_research E q st = (inl text, st') /\ returned_text text.
Proof.
  destruct (run_research_run E q st) as (text & st' & Hrun & Hfrom).
  exists text, st'. split; [exact Hrun | eapply run_from_returned; eassumption].
Qed.

(** C10. The loop of [run_research] is always left by a [return] of one
    of its iterations, so the statement after the loop is not reached
    and the text "Maximum retries exceeded..." is never what
    [run_research] returns. *)
Theorem max_retries_text_unreachable E q st :
  (exists text st',
      for_each (range max_retries) (attempt_body E q) st = (inl (Some text), st')) /\
  fst (run_research E q st) <> inl max_retries_text /\
  max_retries_text =
    "Maximum retries exceeded. Please try again later or contact support if the issue persists.".
Proof.
  split; [|split; [|reflexivity]].
  - destruct (loop_returns E q st) as (text & st' & Hloop & _). eauto.
  - destruct (run_research_run E q st) as (text & st' & Hrun & Hfrom).
    rewrite Hrun. cbn [fst]. intros Heq. inversion Heq as [Htext].
    eapply returned_text_not_fallback; [eapply run_from_returned; eassumption | exact Htext].
Qed.

Lemma tool_event_fresh (e : event) : tool_event e -> starts_fresh e /\ is_start e = false.
Proof. destruct e; simpl; intuition. Qed.

Lemma filter_tool_events (evs : list event) :
  Forall tool_event evs -> filter is_start evs = [].
Proof.
  induction 1 as [|e evs He _ IH]; [reflexivity|].
  cbn [filter]. destruct (tool_event_fresh e He) as [_ ->]. exact IH.
Qed.

Lemma filter_entry_delay (i : Z) : filter is_start (entry_delay i) = [].
Proof. unfold entry_delay. destruct (i >? 0); reflexivity. Qed.

Lemma loop_journal_fresh q i chron :
  loop_journal q i chron ->
  Forall starts_fresh chron /\
  (1 <= Z.of_nat (length (filter is_start chron)) /\
   (0 <= i <= max_retries - 1 ->
    Z.of_nat (length (filter is_start chron)) <= max_retries - i)).
Proof.
  induction 1 as [i tool_evs Htool | i tool_evs line rl rest Htool Hi Hloop IH].
  - split.
    + apply Forall_app. split.
      * unfold entry_delay. destruct (i >? 0); repeat constructor.
      * constructor; [reflexivity|].
        eapply Forall_impl; [|exact Htool]. intros e He. now apply tool_event_fresh.
    + rewrite filter_app, filter_entry_delay. cbn [app filter is_start].
      rewrite filter_tool_events by exact Htool. cbn [length].
      unfold max_retries. lia.
  - destruct IH as (Hfresh & Hlow & Hhigh). split.
    + apply Forall_app. split.
      * unfold entry_delay. destruct (i >? 0); repeat constructor.
      * constructor; [reflexivity|]. apply Forall_app. split.
        -- eapply Forall_impl; [|exact Htool]. intros e He. now apply tool_event_fresh.
        -- repeat constructor. exact Hfresh.
    + rewrite filter_app, filter_entry_delay. cbn [app filter is_start].
      rewrite filter_app, filter_tool_events by exact Htool.
      cbn [app filter is_start length]. split; [lia|].
      intros Hpos. specialize (Hhigh ltac:(lia)). lia.
Qed.

(** C6. Resetting the search counter sets it to exactly 0 and resetting
    again changes nothing; every pipeline attempt, the first and each
    retry, starts from a reset, so [create_research_crew] is entered
    with the counter at 0 whatever the counter held before the run or
    at the end of the previous attempt. *)
Theorem reset_every_attempt :
  (forall st, _global_search_count (snd (reset_search_counter st)) = 0) /\
  (forall st, reset_search_counter (snd (reset_search_counter st)) = reset_search_counter st) /\
  (forall n st,
      _global_search_count (Nat.iter (S n) (fun s => snd (reset_search_counter s)) st) = 0) /\
  (forall E q i st,
      pipeline_attempt E q i st
        = (c <- create_research_crew E q ;; kickoff E c) (entered i st) /\
      entered i st = snd (((if i >? 0 then time_sleep (inject_Z (retry_delay * i)) else ret tt)
                            : M unit) (snd (reset_search_counter st)))) /\
  (forall E q st,
      let evs := journal st (snd (run_research E q st)) in
      Forall starts_fresh evs /\
      (1 <= length (filter is_start evs) <= 3)%nat).
Proof.
  split; [reflexivity|]. split; [reflexivity|]. split; [reflexivity|]. split.
  - intros E q i st. split; [apply pipeline_attempt_eq|].
    unfold entered. destruct (i >? 0); reflexivity.
  - intros E q st evs. subst evs.
    destruct (run_research_run E q st) as (text & st' & Hrun & Hfrom).
    rewrite Hrun. cbn [snd].
    destruct (run_from_journal E q 0 st text st' Hfrom) as (chron & Hj & _ & Hloop).
    rewrite Hj. destruct (loop_journal_fresh q 0 chron Hloop) as (Hfresh & Hlow & Hhigh).
    split; [exact Hfresh|].
    specialize (Hhigh ltac:(unfold max_retries; lia)). unfold max_retries in Hhigh. lia.
Qed.

Lemma attempt_body_continue E q i st st' :
  attempt_body E q i st = (inl None, st') -> i < max_retries - 1.
Proof.
  intros Hbody.
  destruct (attempt_body_iteration E q i st) as (r & st1 & Hb & Hiter).
  rewrite Hbody in Hb. inversion Hb; subst.
  eapply iteration_continues; eassumption.
Qed.

Lemma attempt_body_report E q i st raw st' :
  pipeline_attempt E q i st = (inl raw, st') ->
  attempt_body E q i st
    = (inl (Some (if len raw <? 500 then limited_content_text raw else raw)), st').
Proof.
  intros Hp. unfold attempt_body, try_except, bind. rewrite Hp.
  destruct (len raw <? 500); reflexivity.
Qed.

(** Entering attempt [i], the loop has the attempts from [i] on left. *)
Lemma reached_loop E q st0 i st :
  reached E q st0 i st ->
  0 <= i <= max_retries - 1 /\
  for_each (range max_retries) (attempt_body E q) st0
    = for_each (attempts_from i) (attempt_body E q) st.
Proof.
  induction 1 as [| i st st' Hreach [Hi IH] Hbody].
  - split; [unfold max_retries; lia | reflexivity].
  - pose proof (attempt_body_continue _ _ _ _ _ Hbody) as Hlt.
    split; [lia|]. rewrite IH.
    assert (Hcases : i = 0 \/ i = 1) by (unfold max_retries in Hlt; lia).
    destruct Hcases as [-> | ->];
      change (attempts_from 0) with [0; 1; 2];
      change (attempts_from 1) with [1; 2];
      change (attempts_from (0 + 1)) with [1; 2];
      change (attempts_from (1 + 1)) with [2];
      cbn [for_each]; unfold bind at 1; rewrite Hbody; reflexivity.
Qed.

(** C7. When a pipeline attempt that the loop reaches succeeds with a
    report body shorter than 500 characters, [run_research] returns
    (it does not fail) the limited-content message, which includes
    that body verbatim between its notice and its note. *)
Theorem limited_content_returned E q st0 i st raw st'
  (Hreach : reached E q st0 i st)
  (Hrun : pipeline_attempt E q i st = (inl raw, st'))
  (Hshort : len raw < 500) :
  run_research E q st0 = (inl (limited_content_text raw), st') /\
  exists notice note,
    limited_content_text raw = notice ++ raw ++ note /\
    contains "content seems limited" notice = true /\
    note <> "".
Proof.
  split.
  - destruct (reached_loop E q st0 i st Hreach) as [Hi Hloop].
    unfold run_research, bind. rewrite Hloop.
    assert (Hbody := attempt_body_report E q i st raw st' Hrun).
    assert (Hlt : (len raw <? 500) = true) by (apply Z.ltb_lt; exact Hshort).
    rewrite Hlt in Hbody.
    assert (Hcases : i = 0 \/ i = 1 \/ i = 2) by (unfold max_retries in Hi; lia).
    destruct Hcases as [-> | [-> | ->]];
      change (attempts_from 0) with [0; 1; 2];
      change (attempts_from 1) with [1; 2];
      change (attempts_from 2) with [2];
      cbn [for_each]; unfold bind; rewrite Hbody; reflexivity.
  - exists ("Research completed but content seems limited. Here's what was found:" ++ nl ++ nl),
      (nl ++ nl ++ "[Note: For more comprehensive results, try refining your query or checking API limits]").
    split; [|split; [reflexivity | discriminate]].
    unfold limited_content_text. now rewrite !append_assoc.
Qed.

Lemma limited_content_returned_witness :
  len (filler "x" 300) = 300 /\
  fst (run_research world_short "topic" initial_state)
    = inl (limited_content_text (filler "x" 300)).
Proof.
  split; [reflexivity|].
  pose (st1 := snd (attempt_body world_short "topic" 0 initial_state)).
  pose (st2 := snd (pipeline_attempt world_short "topic" 1 st1)).
  assert (Hreach : reached world_short "topic" initial_state (0 + 1) st1).
  { apply reached_retry with initial_state; [apply reached_first | reflexivity]. }
  assert (Hrun : pipeline_attempt world_short "topic" 1 st1 = (inl (filler "x" 300), st2))
    by (vm_compute; reflexivity).
  assert (Hshort : len (filler "x" 300) < 500) by (vm_compute; reflexivity).
  destruct (limited_content_returned world_short "topic" initial_state 1 st1
              (filler "x" 300) st2 Hreach Hrun Hshort) as [Hret _].
  rewrite Hret. reflexivity.
Defined.

(** ** Missing search-provider credential *)

Section MissingCredential.

Variable E : externals.
Variable q : string.
Hypothesis Havailable : LINKUP_AVAILABLE E = true.
Hypothesis Hgemini : truthy_opt (getenv E "GEMINI_API_KEY") = true.
Hypothesis Hlinkup : truthy_opt (getenv E "LINKUP_API_KEY") = false.

Lemma pipeline_missing_key (i : Z) (st : state) :
  pipeline_attempt E q i st =
    (inr (ValueError "LINKUP_API_KEY environment variable not set"),
     logged [PipelineStart q 0] (entered i st)).
Proof.
  rewrite pipeline_attempt_eq. unfold bind. rewrite create_research_crew_eq.
  rewrite Havailable, Hgemini, Hlinkup. reflexivity.
Qed.

Lemma attempt_missing_key (i : Z) (st : state) :
  attempt_body E q i st =
    handle_error i (ValueError "LINKUP_API_KEY environment variable not set")
      (logged [PipelineStart q 0] (entered i st)).
Proof.
  unfold attempt_body, try_except, bind. rewrite pipeline_missing_key. reflexivity.
Qed.

Lemma run_missing_key (st : state) :
  fst (run_research E q st)
    = inl "Configuration Error: LINKUP_API_KEY environment variable not set" /\
  trace (snd (run_research E q st))
    = ([PipelineStart q 0; Sleep 6; Sleep 3;
        Print "Error on attempt 2, retrying in 3 seconds...";
        PipelineStart q 0; Sleep 3; Sleep 3;
        Print "Error on attempt 1, retrying in 3 seconds...";
        PipelineStart q 0] ++ trace st)%list.
Proof.
  unfold run_research, bind at 1. change (range max_retries) with [0; 1; 2].
  cbn [for_each]. unfold bind.
  rewrite attempt_missing_key, handle_error_retry by (unfold max_retries; lia).
  change (is_rate_limit (ValueError "LINKUP_API_KEY environment variable not set"))
    with false.
  cbv iota.
  rewrite attempt_missing_key, handle_error_retry by (unfold max_retries; lia).
  change (is_rate_limit (ValueError "LINKUP_API_KEY environment variable not set"))
    with false.
  cbv iota.
  rewrite attempt_missing_key. split; reflexivity.
Qed.

End MissingCredential.

(** C8 (as the code has it). With the provider library and the
    language-model key present and the search-provider key absent,
    every pipeline attempt fails in [create_research_crew] with the
    configuration error naming LINKUP_API_KEY, before any crew is built;
    the controller makes three attempts, sleeping [retry_delay] in the
    handler after attempts 0 and 1 and [retry_delay * i] when attempts
    1 and 2 start (6 then 9 between attempts, not one fixed delay); and
    [run_research] returns, without raising, the exception's text after
    the label "Configuration Error: " and nothing more. *)
Theorem missing_search_credential E q st
  (Havailable : LINKUP_AVAILABLE E = true)
  (Hgemini : truthy_opt (getenv E "GEMINI_API_KEY") = true)
  (Hlinkup : truthy_opt (getenv E "LINKUP_API_KEY") = false) :
  (forall i st1,
      pipeline_attempt E q i st1 =
        (inr (ValueError "LINKUP_API_KEY environment variable not set"),
         logged [PipelineStart q 0] (entered i st1))) /\
  fst (run_research E q st)
    = inl "Configuration Error: LINKUP_API_KEY environment variable not set" /\
  journal st (snd (run_research E q st))
    = [PipelineStart q 0;
       Print "Error on attempt 1, retrying in 3 seconds..."; Sleep 3; Sleep 3;
       PipelineStart q 0;
       Print "Error on attempt 2, retrying in 3 seconds..."; Sleep 3; Sleep 6;
       PipelineStart q 0] /\
  waits_before_attempts (journal st (snd (run_research E q st))) = [0%Q; 6%Q; 9%Q].
Proof.
  destruct (run_missing_key E q Havailable Hgemini Hlinkup st) as [Htext Htrace].
  split; [intros i st1; now apply pipeline_missing_key|].
  split; [exact Htext|].
  rewrite (journal_extends _ _ _ Htrace). split; reflexivity.
Qed.

Lemma missing_search_credential_witness :
  fst (run_research world_no_search_key "topic" initial_state)
    = inl "Configuration Error: LINKUP_API_KEY environment variable not set".
Proof.
  apply (missing_search_credential world_no_search_key "topic" initial_state);
    reflexivity.
Defined.

(** C8 as the specification words it fails where the search-provider
    key is absent: the waits between attempts are 6 and 9, and the
    returned message carries no remediation step. *)
Lemma missing_credential_counterexample :
  ~ missing_credential_as_specified world_no_search_key "topic" initial_state.
Proof.
  intros (text & Htext & _ & _ & _ & Hsteps).
  vm_compute in Htext. inversion Htext; subst text.
  vm_compute in Hsteps. discriminate Hsteps.
Qed.

Example missing_credential_waits_not_fixed :
  ~ fixed_delay (waits_before_attempts
                   (journal initial_state
                      (snd (run_research world_no_search_key "topic" initial_state)))).
Proof.
  intros (d & Hd).
  assert (H1 := Hd 1%nat 6%Q (le_n 1) eq_refl).
  assert (H2 := Hd 2%nat 9%Q (le_S _ _ (le_n 1)) eq_refl).
  rewrite <- H1 in H2. vm_compute in H2. discriminate H2.
Qed.

(** ** Retry delays *)

Lemma waits_tool_events (evs : list event) :
  Forall tool_event evs ->
  forall acc rest, waits true acc (evs ++ rest)%list = waits true acc rest.
Proof.
  induction 1 as [|e evs He _ IH]; intros acc rest; [reflexivity|].
  destruct e; try (now destruct He); cbn [app waits]; apply IH.
Qed.

Lemma waits_tool_only (evs : list event) (acc : Q) :
  Forall tool_event evs -> waits true acc evs = [].
Proof.
  intros H. rewrite <- (app_nil_r evs). now rewrite waits_tool_events.
Qed.

(** C4 as the specification words it fails on both paths. Where every
    attempt fails with the configuration error (a generic failure) the
    waits are 0, 6, 9 and not 0, 3, 6; where every attempt fails on the
    rate limit they are 0, 6, 12 and not 0, 6, 9. *)
Lemma retry_backoff_counterexample :
  (is_rate_limit (ValueError "LINKUP_API_KEY environment variable not set") = false /\
   ~ backoff_as_specified [false; false]
       (waits_before_attempts
          (journal initial_state
             (snd (run_research world_no_search_key "topic" initial_state))))) /\
  (is_rate_limit (Exn "<class 'litellm.RateLimitError'>" "Rate limit exceeded") = true /\
   ~ backoff_as_specified [true; true]
       (waits_before_attempts
          (journal initial_state
             (snd (run_research world_rate_limited "topic" initial_state))))).
Proof.
  split; (split; [vm_compute; reflexivity|]); unfold backoff_as_specified; intros H;
    vm_compute in H.
  - inversion H as [|? ? ? ? _ Htail]; clear H.
    inversion Htail as [|? ? ? ? Hsecond _]. discriminate Hsecond.
  - inversion H as [|? ? ? ? _ Htail]; clear H.
    inversion Htail as [|? ? ? ? _ Htail']; clear Htail.
    inversion Htail' as [|? ? ? ? Hthird _]. discriminate Hthird.
Qed.

Example generic_failures_waits :
  waits_before_attempts
    (journal initial_state (snd (run_research world_no_search_key "topic" initial_state)))
  = [0%Q; 6%Q; 9%Q].
Proof. vm_compute. reflexivity. Qed.

Example rate_limit_failures_waits :
  waits_before_attempts
    (journal initial_state (snd (run_research world_rate_limited "topic" initial_state)))
  = [0%Q; 6%Q; 12%Q].
Proof. vm_compute. reflexivity. Qed.

(** * Further properties *)

(** ** The search tool *)

(** A provider call that raises is absorbed by the tool: the caller
    gets the error as text, the counter keeps its value (the failed
    call does not consume budget), and the journal shows the pacing
    delay followed by the one contact with the provider, made with the
    depth derived from the counter. *)
Theorem search_failure_absorbed E tool q d o st e
  (Htool : constructed E tool)
  (Hbudget : _global_search_count st < _max_searches)
  (Hkey : truthy_opt (getenv E "LINKUP_API_KEY") = true)
  (Hraise : linkup_search E (provider_calls st) q
              (search_depth_at (_global_search_count st)) o = inr e) :
  fst (_run E tool q d o st) = inl ("Error occurred while searching: " ++ exc_msg e) /\
  _global_search_count (snd (_run E tool q d o st)) = _global_search_count st /\
  journal st (snd (_run E tool q d o st))
    = [Sleep (3 # 2);
       LinkupSearch q (search_depth_at (_global_search_count st)) o false].
Proof.
  rewrite (run_provider_error E tool q d o st e)
    by eauto using constructed_available.
  cbn [fst snd _global_search_count]. repeat split.
  apply (journal_extends st _ [LinkupSearch q _ o false; Sleep (3 # 2)]). reflexivity.
Qed.

Lemma search_failure_absorbed_witness :
  fst (_run world_down built_tool "topic" "standard" "searchResults" initial_state)
    = inl "Error occurred while searching: provider unreachable" /\
  _global_search_count
    (snd (_run world_down built_tool "topic" "standard" "searchResults" initial_state)) = 0.
Proof.
  destruct (search_failure_absorbed world_down built_tool "topic" "standard"
              "searchResults" initial_state
              (Exn "<class 'ConnectionError'>" "provider unreachable"))
    as (Htext & Hcount & _).
  - exists initial_state, initial_state. reflexivity.
  - reflexivity.
  - reflexivity.
  - reflexivity.
  - split; [exact Htext | exact Hcount].
Defined.

Lemma filter_search_journal (st st' : state) (evs : list event) :
  trace st' = (evs ++ trace st)%list ->
  length (filter is_search (journal st st')) = length (filter is_search evs).
Proof.
  intros H. rewrite (journal_extends _ _ _ H).
  rewrite <- (rev_involutive evs) at 2.
  induction (rev evs) as [|e l IH]; [reflexivity|].
  cbn [rev filter]. rewrite filter_app, length_app. cbn [filter].
  destruct (is_search e); cbn [length]; lia.
Qed.

(** No call of the search tool raises: whatever the world, the
    arguments and the state, the caller gets a text. The call moves the
    counter up by one at most and never down, builds no crew, and
    contacts the provider once at most. *)
Theorem search_never_raises E tool q d o st :
  exists text st',
    _run E tool q d o st = (inl text, st') /\
    _global_search_count st <= _global_search_count st' <= _global_search_count st + 1 /\
    crews_built st' = crews_built st /\
    (length (filter is_search (journal st st')) <= 1)%nat.
Proof.
  destruct (run_outcome E tool q d o st)
    as (text & st' & Hrun & Hcrews & [Hst | (ok & Htr & Hlt & Hcount)]).
  - exists text, st'. subst st'. rewrite journal_same. cbn. repeat split; auto; lia.
  - exists text, st'. split; [exact Hrun|]. split; [destruct ok; lia|].
    split; [exact Hcrews|].
    rewrite (filter_search_journal st st' [_; _] Htr). cbn. lia.
Qed.

(** Without the search-provider key (absent or empty) a call within
    budget returns the text naming the variable and changes nothing:
    no delay, no contact with the provider, no budget used. *)
Theorem search_without_key E tool q d o st
  (Htool : constructed E tool)
  (Hbudget : _global_search_count st < _max_searches)
  (Hkey : truthy_opt (getenv E "LINKUP_API_KEY") = false) :
  _run E tool q d o st
    = (inl "Error: LINKUP_API_KEY environment variable not set", st).
Proof. apply run_no_key; eauto using constructed_available. Qed.

Lemma search_without_key_witness :
  _run world_no_search_key built_tool "topic" "standard" "searchResults" initial_state
    = (inl "Error: LINKUP_API_KEY environment variable not set", initial_state).
Proof.
  apply (search_without_key world_no_search_key built_tool "topic" "standard"
           "searchResults" initial_state).
  - exists initial_state, initial_state. reflexivity.
  - reflexivity.
  - reflexivity.
Defined.

(** The first test of [_run] never fires on a tool that exists: the
    constructor raises when the library is missing, so no call on a
    constructed tool returns the "LinkupClient is not available" text. *)
Theorem unavailable_text_never_returned E tool q d o st
  (Htool : constructed E tool) :
  fst (_run E tool q d o st)
    <> inl "Error: LinkupClient is not available. Please install linkup-sdk: pip install linkup-sdk".
Proof.
  pose proof (constructed_available E tool Htool) as Ha.
  destruct (Z_lt_ge_dec (_global_search_count st) _max_searches) as [Hc|Hc].
  2:{ rewrite run_limit by (auto; lia). cbn. discriminate. }
  destruct (truthy_opt (getenv E "LINKUP_API_KEY")) eqn:Hk.
  2:{ rewrite run_no_key by auto. cbn. discriminate. }
  destruct (linkup_search E (provider_calls st) q
              (search_depth_at (_global_search_count st)) o) as [s|e] eqn:Hp.
  - rewrite (run_provider_answer E tool q d o st s) by auto.
    cbv zeta. unfold result_header. cbn. discriminate.
  - rewrite (run_provider_error E tool q d o st e) by auto. cbn. discriminate.
Qed.

Lemma unavailable_text_never_returned_witness :
  fst (_run world_ok built_tool "topic" "standard" "searchResults" initial_state)
    <> inl "Error: LinkupClient is not available. Please install linkup-sdk: pip install linkup-sdk".
Proof.
  apply (unavailable_text_never_returned world_ok built_tool).
  exists initial_state, initial_state. reflexivity.
Defined.

(** ** The budget over a session *)

Lemma search_depths_rev_length (evs : list event) :
  length (search_depths (rev evs)) = length (search_depths evs).
Proof.
  induction evs as [|e evs IH]; [reflexivity|].
  cbn [rev]. rewrite search_depths_app, length_app, IH.
  destruct e as [| | ? ? ? [|] |]; cbn; lia.
Qed.

(** Whatever the agent does with its tool, the counter moves up by
    exactly the number of searches the provider answered, never moves
    down, and does not pass the maximum unless it was already beyond
    it; the agent's searches build no crew. *)
Theorem agent_budget_invariant E tool (a : agent) (st : state) :
  let st' := snd (run_agent E tool a st) in
  _global_search_count st'
    = _global_search_count st + Z.of_nat (length (search_depths (journal st st'))) /\
  _global_search_count st' <= Z.max (_global_search_count st) _max_searches /\
  crews_built st' = crews_built st.
Proof.
  destruct (run_agent_depths E tool a st) as (evs & n & Hevs & _ & Hds & Hc & Hb & Hcb).
  cbv zeta. rewrite (journal_extends _ _ _ Hevs), Hds, depths_from_length.
  split; [exact Hc|]. split; [|exact Hcb].
  destruct Hb as [-> | Hle]; [rewrite Hc|]; lia.
Qed.

Lemma run_agent_failing E tool (report : string)
  (Ha : LINKUP_AVAILABLE E = true)
  (Hkey : truthy_opt (getenv E "LINKUP_API_KEY") = true)
  (Hdown : forall k q d o, exists e, linkup_search E k q d o = inr e)
  (n : nat) : forall st,
  _global_search_count st < _max_searches ->
  exists evs,
    trace (snd (run_agent E tool (searcher n report) st)) = (evs ++ trace st)%list /\
    length (filter is_search evs) = n /\
    _global_search_count (snd (run_agent E tool (searcher n report) st))
      = _global_search_count st.
Proof.
  induction n as [|n IH]; intros st Hlt.
  - exists []. repeat split.
  - cbn [searcher].
    destruct (Hdown (provider_calls st) "topic"
                (search_depth_at (_global_search_count st)) "searchResults") as [e He].
    rewrite (run_agent_use_tool E tool _ _ _ _ st _ _
               (run_provider_error E tool "topic" "standard" "searchResults"
                  st e Ha Hlt Hkey He)).
    match goal with
    | |- context [run_agent _ _ _ ?s] => destruct (IH s Hlt) as (evs & Hevs & Hn & Hc)
    end.
    exists (evs ++ [LinkupSearch "topic" (search_depth_at (_global_search_count st))
                      "searchResults" false; Sleep (3 # 2)])%list.
    rewrite Hevs, Hc. cbn [trace _global_search_count]. rewrite <- app_assoc.
    split; [reflexivity|]. split; [|reflexivity].
    rewrite filter_app, length_app, Hn. cbn. lia.
Qed.

(** The budget bounds the searches that are answered, not the ones
    that are tried: where the provider fails on every call, an agent
    that asks [n] times within budget reaches the provider [n] times in
    one session, for any [n], and the counter has not moved. *)
Theorem failed_searches_unbounded E tool (report : string) (n : nat) (st : state)
  (Htool : constructed E tool)
  (Hkey : truthy_opt (getenv E "LINKUP_API_KEY") = true)
  (Hdown : forall k q d o, exists e, linkup_search E k q d o = inr e)
  (Hbudget : _global_search_count st < _max_searches) :
  let st' := snd (run_agent E tool (searcher n report) st) in
  length (filter is_search (journal st st')) = n /\
  _global_search_count st' = _global_search_count st.
Proof.
  destruct (run_agent_failing E tool report (constructed_available E tool Htool)
              Hkey Hdown n st Hbudget) as (evs & Hevs & Hn & Hc).
  cbv zeta. split; [|exact Hc].
  rewrite (filter_search_journal _ _ _ Hevs). exact Hn.
Qed.

Lemma failed_searches_unbounded_witness :
  length (filter is_search
            (journal initial_state
               (snd (run_agent world_down built_tool (searcher 12 "report") initial_state))))
    = 12%nat.
Proof.
  apply (failed_searches_unbounded world_down built_tool "report" 12 initial_state).
  - exists initial_state, initial_state. reflexivity.
  - reflexivity.
  - intros k q d o. eexists. reflexivity.
  - reflexivity.
Defined.

(** ** Building the crew *)

(** [create_research_crew] tests the library first, then the
    language-model key, then the search-provider key, and raises at the
    first test that fails: with both keys missing the error names
    GEMINI_API_KEY only, and the framework's constructors are not run.
    They run only when all three tests pass: the crew, around a
    constructed tool, is returned unless one of them raises, and then
    that exception is what the caller gets. In no case is the search
    counter or the provider touched. *)
Theorem crew_checks_order E q st :
  let r := create_research_crew E q st in
  (_global_search_count (snd r) = _global_search_count st /\
   provider_calls (snd r) = provider_calls st /\
   journal st (snd r) = [PipelineStart q (_global_search_count st)]) /\
  (LINKUP_AVAILABLE E = false ->
   fst r = inr (ImportError "LinkupClient is not available. Please install linkup-sdk: pip install linkup-sdk")
   /\ crews_built (snd r) = crews_built st) /\
  (LINKUP_AVAILABLE E = true ->
   truthy_opt (getenv E "GEMINI_API_KEY") = false ->
   fst r = inr (ValueError "GEMINI_API_KEY environment variable not set")
   /\ crews_built (snd r) = crews_built st) /\
  (LINKUP_AVAILABLE E = true ->
   truthy_opt (getenv E "GEMINI_API_KEY") = true ->
   truthy_opt (getenv E "LINKUP_API_KEY") = false ->
   fst r = inr (ValueError "LINKUP_API_KEY environment variable not set")
   /\ crews_built (snd r) = crews_built st) /\
  (LINKUP_AVAILABLE E = true ->
   truthy_opt (getenv E "GEMINI_API_KEY") = true ->
   truthy_opt (getenv E "LINKUP_API_KEY") = true ->
   crews_built (snd r) = S (crews_built st) /\
   match framework_failure E (crews_built st) q with
   | Some e => fst r = inr e
   | None =>
       exists c, fst r = inl c /\ constructed E (crew_tool c)
                 /\ crew_agent c = crew_behaviour E (crews_built st) q
   end).
Proof.
  cbv zeta. rewrite create_research_crew_eq. cbv zeta.
  split.
  - destruct (negb (LINKUP_AVAILABLE E));
      [|destruct (negb (truthy_opt (getenv E "GEMINI_API_KEY")));
        [|destruct (negb (truthy_opt (getenv E "LINKUP_API_KEY")))]];
      cbn [snd]; (repeat split);
      apply (journal_extends st _ [PipelineStart q (_global_search_count st)]);
      reflexivity.
  - split; [intros ->; split; reflexivity|].
    split; [intros -> ->; split; reflexivity|].
    split; [intros -> -> ->; split; reflexivity|].
    intros Ha -> ->. rewrite Ha. cbn [negb fst snd crews_built].
    split; [reflexivity|].
    destruct (framework_failure E (crews_built st) q); [reflexivity|].
    eexists. split; [reflexivity|]. cbn [crew_tool crew_agent].
    split; [|reflexivity].
    exists initial_state, initial_state. unfold LinkUpSearchTool_init. rewrite Ha. reflexivity.
Qed.

Lemma crew_checks_order_witness :
  fst (create_research_crew world_no_keys "topic" initial_state)
    = inr (ValueError "GEMINI_API_KEY environment variable not set") /\
  fst (create_research_crew world_framework_broken "topic" initial_state)
    = inr (ImportError "cannot import name 'LLM'").
Proof.
  split.
  - apply (crew_checks_order world_no_keys "topic" initial_state); reflexivity.
  - exact (proj2 (proj2 (proj2 (proj2 (proj2
             (crew_checks_order world_framework_broken "topic" initial_state))))
             eq_refl eq_refl eq_refl)).
Defined.

(** ** Runs in which no crew can be built *)

Lemma handle_error_final (i : Z) (e : exn) (st : state) :
  max_retries - 1 <= i ->
  handle_error i e st =
    (inl (Some (if is_rate_limit e then rate_limited_text else final_error_text e)), st).
Proof.
  intros Hi. unfold handle_error, final_error_text.
  assert (Hlt : (i <? max_retries - 1) = false) by (apply Z.ltb_ge; exact Hi).
  rewrite Hlt. destruct (is_rate_limit e); [reflexivity|].
  destruct (contains "ImportError" (exc_type e)); [reflexivity|].
  destruct (contains "ValueError" (exc_type e)); reflexivity.
Qed.

Section CrewNeverBuilt.

Variable E : externals.
Variable q : string.
Variable e : exn.
Hypothesis Hfails : forall st,
  create_research_crew E q st = (inr e, logged [PipelineStart q (_global_search_count st)] st).
Hypothesis Hkind : is_rate_limit e = false.

Lemma attempt_crew_fails (i : Z) (st : state) :
  attempt_body E q i st = handle_error i e (logged [PipelineStart q 0] (entered i st)).
Proof.
  unfold attempt_body, try_except, bind at 1. rewrite pipeline_attempt_eq.
  unfold bind. rewrite Hfails. reflexivity.
Qed.

Lemma run_crew_fails (st : state) :
  fst (run_research E q st) = inl (final_error_text e) /\
  trace (snd (run_research E q st))
    = ([PipelineStart q 0; Sleep 6; Sleep 3;
        Print "Error on attempt 2, retrying in 3 seconds...";
        PipelineStart q 0; Sleep 3; Sleep 3;
        Print "Error on attempt 1, retrying in 3 seconds...";
        PipelineStart q 0] ++ trace st)%list /\
  provider_calls (snd (run_research E q st)) = provider_calls st /\
  crews_built (snd (run_research E q st)) = crews_built st.
Proof.
  unfold run_research, bind at 1. change (range max_retries) with [0; 1; 2].
  cbn [for_each]. unfold bind.
  rewrite attempt_crew_fails, handle_error_retry by (unfold max_retries; lia).
  rewrite Hkind.
  rewrite attempt_crew_fails, handle_error_retry by (unfold max_retries; lia).
  rewrite Hkind.
  rewrite attempt_crew_fails, handle_error_final by (unfold max_retries; lia).
  rewrite Hkind. repeat split.
Qed.

End CrewNeverBuilt.

(** Where the provider library could not be imported, [run_research]
    makes its three attempts, none of which builds a crew or reaches the
    provider, whatever keys are set, and returns the import message, in
    which the installation hint stands twice: once from the exception's
    own text and once from the handler. *)
Theorem library_unavailable_run E q st
  (Hmissing : LINKUP_AVAILABLE E = false) :
  fst (run_research E q st)
    = inl ("Import Error: LinkupClient is not available. Please install linkup-sdk: pip install linkup-sdk"
             ++ nl ++ "Please install linkup-sdk: pip install linkup-sdk") /\
  length (filter is_start (journal st (snd (run_research E q st)))) = 3%nat /\
  provider_calls (snd (run_research E q st)) = provider_calls st /\
  crews_built (snd (run_research E q st)) = crews_built st.
Proof.
  destruct (run_crew_fails E q
              (ImportError "LinkupClient is not available. Please install linkup-sdk: pip install linkup-sdk"))
    with (st := st) as (Htext & Htrace & Hcalls & Hcrews).
  - intros st1. rewrite create_research_crew_eq, Hmissing. reflexivity.
  - vm_compute. reflexivity.
  - rewrite Htext, (journal_extends _ _ _ Htrace). repeat split; assumption.
Qed.

Lemma library_unavailable_run_witness :
  crews_built (snd (run_research world_no_library "topic" initial_state)) = 0%nat.
Proof.
  apply (library_unavailable_run world_no_library "topic" initial_state). reflexivity.
Defined.

(** Where the language-model key is missing (absent or empty),
    [run_research] fails three times before any crew is built and
    returns the configuration message naming GEMINI_API_KEY, whether or
    not the search-provider key is set. *)
Theorem missing_gemini_key_run E q st
  (Havailable : LINKUP_AVAILABLE E = true)
  (Hgemini : truthy_opt (getenv E "GEMINI_API_KEY") = false) :
  fst (run_research E q st)
    = inl "Configuration Error: GEMINI_API_KEY environment variable not set" /\
  length (filter is_start (journal st (snd (run_research E q st)))) = 3%nat /\
  provider_calls (snd (run_research E q st)) = provider_calls st /\
  crews_built (snd (run_research E q st)) = crews_built st.
Proof.
  destruct (run_crew_fails E q (ValueError "GEMINI_API_KEY environment variable not set"))
    with (st := st) as (Htext & Htrace & Hcalls & Hcrews).
  - intros st1. rewrite create_research_crew_eq, Havailable, Hgemini. reflexivity.
  - vm_compute. reflexivity.
  - rewrite Htext, (journal_extends _ _ _ Htrace). repeat split; assumption.
Qed.

Lemma missing_gemini_key_run_witness :
  fst (run_research world_no_keys "topic" initial_state)
    = inl "Configuration Error: GEMINI_API_KEY environment variable not set".
Proof.
  apply (missing_gemini_key_run world_no_keys "topic" initial_state); reflexivity.
Defined.

(** ** A report that passes the length test *)

(** When a pipeline attempt that the loop reaches hands in a report of
    at least 500 characters, [run_research] returns that report
    unchanged and stops there: the state it leaves is the state at the
    end of that attempt. *)
Theorem report_returned_unchanged E q st0 i st raw st'
  (Hreach : reached E q st0 i st)
  (Hrun : pipeline_attempt E q i st = (inl raw, st'))
  (Hlong : 500 <= len raw) :
  run_research E q st0 = (inl raw, st').
Proof.
  destruct (reached_loop E q st0 i st Hreach) as [Hi Hloop].
  unfold run_research, bind. rewrite Hloop.
  assert (Hbody := attempt_body_report E q i st raw st' Hrun).
  assert (Hge : (len raw <? 500) = false) by (apply Z.ltb_ge; exact Hlong).
  rewrite Hge in Hbody.
  assert (Hcases : i = 0 \/ i = 1 \/ i = 2) by (unfold max_retries in Hi; lia).
  destruct Hcases as [-> | [-> | ->]];
    change (attempts_from 0) with [0; 1; 2];
    change (attempts_from 1) with [1; 2];
    change (attempts_from 2) with [2];
    cbn [for_each]; unfold bind; rewrite Hbody; reflexivity.
Qed.

Lemma report_returned_unchanged_witness :
  fst (run_research world_recovers "topic" initial_state) = inl (filler "r" 600) /\
  _global_search_count (snd (run_research world_recovers "topic" initial_state)) = 5.
Proof.
  pose (st1 := snd (attempt_body world_recovers "topic" 0 initial_state)).
  pose (st2 := snd (attempt_body world_recovers "topic" 1 st1)).
  pose (st3 := snd (pipeline_attempt world_recovers "topic" 2 st2)).
  assert (Hreach : reached world_recovers "topic" initial_state (0 + 1 + 1) st2).
  { apply reached_retry with st1; [|vm_compute; reflexivity].
    apply reached_retry with initial_state; [apply reached_first | vm_compute; reflexivity]. }
  assert (Hrun : pipeline_attempt world_recovers "topic" 2 st2 = (inl (filler "r" 600), st3))
    by (vm_compute; reflexivity).
  assert (Hlong : 500 <= len (filler "r" 600)) by (vm_compute; discriminate).
  rewrite (report_returned_unchanged world_recovers "topic" initial_state 2 st2
             (filler "r" 600) st3 Hreach Hrun Hlong).
  split; [reflexivity | vm_compute; reflexivity].
Defined.

(** ** Three failed attempts *)

Lemma handle_error_continues (i : Z) (e : exn) (st : state) :
  i < max_retries - 1 ->
  handle_error i e st = (inl None, snd (handle_error i e st)) /\
  exists line,
    snd (handle_error i e st)
      = logged [Sleep (inject_Z (handler_delay (is_rate_limit e) i)); Print line] st.
Proof.
  intros Hi. rewrite handle_error_retry by exact Hi. split; [reflexivity|].
  cbn [snd]. unfold handler_delay. destruct (is_rate_limit e); eexists; reflexivity.
Qed.

Lemma attempt_body_error E q i st e st' :
  pipeline_attempt E q i st = (inr e, st') ->
  attempt_body E q i st = handle_error i e st'.
Proof. intros H. unfold attempt_body, try_except, bind. rewrite H. reflexivity. Qed.

Lemma pipeline_error_trace E q i st e st' :
  pipeline_attempt E q i st = (inr e, st') ->
  exists evs, Forall tool_event evs /\
              trace st' = (evs ++ PipelineStart q 0 :: entry_delay i ++ trace st)%list.
Proof.
  intros H. destruct (pipeline_attempt_trace E q i st) as (evs & Hevs & Htool).
  rewrite H in Hevs. exists evs. split; [exact Htool | exact Hevs].
Qed.

(** When all three attempts fail, the text returned is decided by the
    third error alone: the rate-limit message if its lowercased text
    has one of the three marks, whatever its type, and otherwise the
    import, configuration or generic message by its type. The first
    two errors decide only the waits: each adds its handler's delay
    ([retry_delay * (i + 1)] when rate-limited, [retry_delay] when not)
    to the delay with which the next attempt starts. *)
Theorem three_failures E q st e0 s0 e1 s1 e2 s2
  (Hfirst : pipeline_attempt E q 0 st = (inr e0, s0))
  (Hsecond : pipeline_attempt E q 1 (snd (handle_error 0 e0 s0)) = (inr e1, s1))
  (Hthird : pipeline_attempt E q 2 (snd (handle_error 1 e1 s1)) = (inr e2, s2)) :
  run_research E q st
    = (inl (if is_rate_limit e2 then rate_limited_text else final_error_text e2), s2) /\
  waits_before_attempts (journal st s2)
    = [0%Q;
       inject_Z ((if is_rate_limit e0 then retry_delay * 1 else retry_delay) + retry_delay * 1);
       inject_Z ((if is_rate_limit e1 then retry_delay * 2 else retry_delay) + retry_delay * 2)] /\
  length (filter is_start (journal st s2)) = 3%nat.
Proof.
  destruct (handle_error_continues 0 e0 s0 ltac:(unfold max_retries; lia)) as [Hh0 [l0 Hs0]].
  destruct (handle_error_continues 1 e1 s1 ltac:(unfold max_retries; lia)) as [Hh1 [l1 Hs1]].
  split.
  - unfold run_research, bind at 1. change (range max_retries) with [0; 1; 2].
    cbn [for_each]. unfold bind.
    rewrite (attempt_body_error _ _ _ _ _ _ Hfirst), Hh0.
    rewrite (attempt_body_error _ _ _ _ _ _ Hsecond), Hh1.
    rewrite (attempt_body_error _ _ _ _ _ _ Hthird).
    rewrite handle_error_final by (unfold max_retries; lia). reflexivity.
  - destruct (pipeline_error_trace _ _ _ _ _ _ Hfirst) as (t0 & Ht0 & Htr0).
    destruct (pipeline_error_trace _ _ _ _ _ _ Hsecond) as (t1 & Ht1 & Htr1).
    destruct (pipeline_error_trace _ _ _ _ _ _ Hthird) as (t2 & Ht2 & Htr2).
    rewrite Hs1 in Htr2. rewrite Hs0 in Htr1.
    cbn [logged trace app entry_delay Z.gtb Z.compare] in Htr0, Htr1, Htr2.
    rewrite Htr0 in Htr1. rewrite Htr1 in Htr2. clear Htr0 Htr1.
    assert (Hshape : trace s2 =
      (rev (PipelineStart q 0 :: rev t0
              ++ Print l0 :: Sleep (inject_Z (handler_delay (is_rate_limit e0) 0))
              :: Sleep (inject_Z (retry_delay * 1)) :: PipelineStart q 0 :: rev t1
              ++ Print l1 :: Sleep (inject_Z (handler_delay (is_rate_limit e1) 1))
              :: Sleep (inject_Z (retry_delay * 2)) :: PipelineStart q 0 :: rev t2)
         ++ trace st)%list).
    { rewrite Htr2. cbn [rev]. rewrite !rev_app_distr. cbn [rev].
      rewrite !rev_app_distr. cbn [rev]. rewrite !rev_involutive.
      rewrite <- !app_assoc. cbn [app]. rewrite <- ?app_assoc. reflexivity. }
    rewrite (journal_extends _ _ _ Hshape), rev_involutive.
    apply Forall_rev in Ht0, Ht1, Ht2.
    split.
    + unfold waits_before_attempts. cbn [waits].
      rewrite waits_tool_events by exact Ht0. cbn [waits].
      rewrite waits_tool_events by exact Ht1. cbn [waits].
      rewrite waits_tool_only by exact Ht2.
      unfold handler_delay. destruct (is_rate_limit e0), (is_rate_limit e1); reflexivity.
    + cbn [filter is_start]. rewrite filter_app, filter_tool_events by exact Ht0.
      cbn [app filter is_start is_print]. rewrite filter_app, filter_tool_events by exact Ht1.
      cbn [app filter is_start]. rewrite filter_tool_events by exact Ht2. reflexivity.
Qed.

Lemma three_failures_witness :
  fst (run_research world_rate_limited "topic" initial_state) = inl rate_limited_text /\
  waits_before_attempts
    (journal initial_state (snd (run_research world_rate_limited "topic" initial_state)))
  = [0%Q; 6%Q; 12%Q].
Proof.
  pose (e := Exn "<class 'litellm.RateLimitError'>" "Rate limit exceeded").
  pose (s0 := snd (pipeline_attempt world_rate_limited "topic" 0 initial_state)).
  pose (s1 := snd (pipeline_attempt world_rate_limited "topic" 1 (snd (handle_error 0 e s0)))).
  pose (s2 := snd (pipeline_attempt world_rate_limited "topic" 2 (snd (handle_error 1 e s1)))).
  destruct (three_failures world_rate_limited "topic" initial_state e s0 e s1 e s2)
    as (Hrun & Hwaits & _); try (vm_compute; reflexivity).
  rewrite Hrun. cbn [fst snd]. split; [reflexivity | exact Hwaits].
Defined.

(** ** Bounds on a whole run *)

Lemma entry_delay_no_search (i : Z) : search_depths (entry_delay i) = [].
Proof. unfold entry_delay. destruct (i >? 0); reflexivity. Qed.

Lemma pipeline_attempt_bounds E q i st :
  let st' := snd (pipeline_attempt E q i st) in
  0 <= _global_search_count st' <= _max_searches /\
  (crews_built st <= crews_built st' <= S (crews_built st))%nat /\
  (length (search_depths (trace st')) <= length (search_depths (trace st)) + 5)%nat.
Proof.
  cbv zeta. rewrite pipeline_attempt_eq. unfold bind. rewrite create_research_crew_eq.
  cbv zeta.
  assert (Hentered : length (search_depths (trace (entered i st)))
                     = length (search_depths (trace st))).
  { rewrite entered_trace, search_depths_app, entry_delay_no_search. reflexivity. }
  assert (Hcount : _global_search_count (entered i st) = 0) by reflexivity.
  assert (Hcrews : crews_built (entered i st) = crews_built st) by reflexivity.
  revert Hentered Hcount Hcrews. generalize (entered i st). intros s Hentered Hcount Hcrews.
  destruct (negb (LINKUP_AVAILABLE E));
    [cbn; rewrite Hentered, Hcount, Hcrews; unfold _max_searches; lia|].
  destruct (negb (truthy_opt (getenv E "GEMINI_API_KEY")));
    [cbn; rewrite Hentered, Hcount, Hcrews; unfold _max_searches; lia|].
  destruct (negb (truthy_opt (getenv E "LINKUP_API_KEY")));
    [cbn; rewrite Hentered, Hcount, Hcrews; unfold _max_searches; lia|].
  destruct (framework_failure E (crews_built s) q);
    [cbn; rewrite Hentered, Hcount, Hcrews; unfold _max_searches; lia|].
  unfold kickoff. cbn [crew_tool crew_agent].
  match goal with
  | |- context [run_agent E ?tool ?a ?s0] =>
      destruct (run_agent_depths E tool a s0) as (evs & n & Hevs & _ & Hds & Hc & Hb & Hcb);
      destruct (run_agent E tool a s0) as [r st'] eqn:Hrun
  end.
  cbn [snd _global_search_count crews_built trace] in *.
  assert (Hn : length (search_depths evs) = n).
  { rewrite <- search_depths_rev_length, Hds. apply depths_from_length. }
  assert (Hlen : (n <= 5)%nat).
  { destruct Hb as [-> | Hle]; [lia|]. rewrite Hc, Hcount in Hle.
    unfold _max_searches in Hle. lia. }
  destruct r; cbn [snd]; rewrite Hc, Hcb, Hevs, search_depths_app, length_app, Hn;
    cbn [search_depths]; rewrite Hentered, Hcount, Hcrews;
    unfold _max_searches; lia.
Qed.

Lemma iteration_bounds E q i st r st' :
  iteration E q i st r st' ->
  0 <= _global_search_count st' <= _max_searches /\
  (crews_built st <= crews_built st' <= S (crews_built st))%nat /\
  (length (search_depths (trace st')) <= length (search_depths (trace st)) + 5)%nat.
Proof.
  intros Hiter. pose proof (pipeline_attempt_bounds E q i st) as Hb. cbv zeta in Hb.
  inversion Hiter as [raw st1 Hp | e st1 Hp Hi | e st1 text Hp Hi Hh Ht]; subst;
    rewrite Hp in Hb; cbn [snd] in Hb; try exact Hb.
  destruct (handle_error_continues i e st1 Hi) as [_ [line ->]].
  cbn [logged _global_search_count crews_built trace app search_depths]. exact Hb.
Qed.

Lemma run_from_bounds E q i st text st' :
  run_from E q i st text st' ->
  0 <= i <= max_retries - 1 ->
  0 <= _global_search_count st' <= _max_searches /\
  (Z.of_nat (crews_built st) <= Z.of_nat (crews_built st')
     <= Z.of_nat (crews_built st) + (max_retries - i)) /\
  (Z.of_nat (length (search_depths (trace st')))
     <= Z.of_nat (length (search_depths (trace st))) + 5 * (max_retries - i)).
Proof.
  induction 1 as [i st text st' Hiter | i st st1 text st' Hiter Hrun IH]; intros Hi.
  - destruct (iteration_bounds _ _ _ _ _ _ Hiter) as (Hc & Hcb & Hs).
    split; [exact Hc|]. unfold max_retries in *. lia.
  - pose proof (iteration_continues _ _ _ _ _ Hiter) as Hlt.
    destruct (iteration_bounds _ _ _ _ _ _ Hiter) as (_ & Hcb & Hs).
    destruct (IH ltac:(lia)) as (Hc & Hcb' & Hs').
    split; [exact Hc|]. unfold max_retries in *. lia.
Qed.

Lemma loop_journal_notices q i chron :
  loop_journal q i chron ->
  (length (filter is_print chron) + 1 = length (filter is_start chron))%nat.
Proof.
  assert (Hentry : forall j, filter is_print (entry_delay j) = []).
  { intros j. unfold entry_delay. destruct (j >? 0); reflexivity. }
  assert (Htools : forall evs, Forall tool_event evs -> filter is_print evs = []).
  { induction 1 as [|e evs He _ IH]; [reflexivity|].
    destruct e; try (now destruct He); cbn [filter is_print]; exact IH. }
  induction 1 as [i tool_evs Htool | i tool_evs line rl rest Htool Hi Hloop IH].
  - rewrite !filter_app, Hentry, filter_entry_delay. cbn [app filter is_print is_start].
    rewrite Htools, filter_tool_events by exact Htool. reflexivity.
  - rewrite !filter_app, Hentry, filter_entry_delay. cbn [app filter is_print is_start].
    rewrite !filter_app, Htools, filter_tool_events by exact Htool.
    cbn [app filter is_print is_start length]. lia.
Qed.

(** Whatever the world does, a call of [run_research] leaves the search
    counter between 0 and 5, builds at most three crews, gets at most
    fifteen searches answered (five per attempt, since every attempt
    starts on a fresh budget), and prints exactly one notice per retry:
    one fewer than the attempts it makes. *)
Theorem run_bounds E q st :
  let st' := snd (run_research E q st) in
  0 <= _global_search_count st' <= 5 /\
  (crews_built st <= crews_built st' <= crews_built st + 3)%nat /\
  (length (search_depths (journal st st')) <= 15)%nat /\
  (length (filter is_print (journal st st')) + 1
     = length (filter is_start (journal st st')))%nat.
Proof.
  destruct (run_research_run E q st) as (text & st' & Hrun & Hfrom).
  cbv zeta. rewrite Hrun. cbn [snd].
  destruct (run_from_bounds E q 0 st text st' Hfrom ltac:(unfold max_retries; lia))
    as (Hc & Hcb & Hs).
  destruct (run_from_journal E q 0 st text st' Hfrom) as (chron & Hj & Htr & Hloop).
  rewrite Hj. unfold max_retries, _max_searches in *.
  split; [exact Hc|]. split; [lia|]. split.
  - rewrite Htr, search_depths_app, length_app, search_depths_rev_length in Hs. lia.
  - now apply (loop_journal_notices q 0).
Qed.

(** ** Retry delays over a run *)

Lemma attempt_body_last E q st :
  snd (attempt_body E q 2 st) = snd (pipeline_attempt E q 2 st).
Proof.
  destruct (pipeline_attempt E q 2 st) as [[raw | e] s] eqn:Hp.
  - now rewrite (attempt_body_report E q 2 st raw s Hp).
  - rewrite (attempt_body_error E q 2 st e s Hp).
    now rewrite handle_error_final by (unfold max_retries; lia).
Qed.

Lemma attempt_body_retries E q i st e st1 :
  i < max_retries - 1 ->
  pipeline_attempt E q i st = (inr e, st1) ->
  exists line,
    attempt_body E q i st =
      (inl None,
       logged [Sleep (inject_Z (if is_rate_limit e then retry_delay * (i + 1)
                                else retry_delay));
               Print line] st1).
Proof.
  intros Hi Hp. rewrite (attempt_body_error E q i st e st1 Hp).
  rewrite handle_error_retry by exact Hi.
  destruct (is_rate_limit e); eexists; reflexivity.
Qed.

Lemma pipeline_trace E q i st :
  exists evs, Forall tool_event (rev evs) /\
              trace (snd (pipeline_attempt E q i st))
                = (evs ++ PipelineStart q 0 :: entry_delay i ++ trace st)%list.
Proof.
  destruct (pipeline_attempt_trace E q i st) as (evs & Hevs & Htool).
  exists evs. split; [now apply Forall_rev | exact Hevs].
Qed.

Lemma journal_chronological (st st' : state) (chron : list event) :
  trace st' = (rev chron ++ trace st)%list -> journal st st' = chron.
Proof. intros H. rewrite (journal_extends _ _ _ H). apply rev_involutive. Qed.

(** C4 (as the code has it). When attempt [i] raises [e] and attempts
    remain, the iteration goes on to the next attempt after sleeping
    [retry_delay * (i + 1)] if the lowercased text of [e] contains
    "overloaded", "rate limit" or "quota" and [retry_delay] otherwise;
    every attempt then starts by resetting the counter and, past
    attempt 0, sleeping [retry_delay * i]. The two add up over a run:
    attempt 0 waits 0, and fresh attempt [i] waits
    [retry_delay + retry_delay * i] when the attempt before it failed
    generically and [retry_delay * i + retry_delay * i] when it failed
    on the rate limit. *)
Theorem retry_backoff E q st :
  (forall i st0 e st1,
      i < max_retries - 1 ->
      pipeline_attempt E q i st0 = (inr e, st1) ->
      exists line,
        attempt_body E q i st0 =
          (inl None,
           logged [Sleep (inject_Z (if is_rate_limit e then retry_delay * (i + 1)
                                    else retry_delay));
                   Print line] st1)) /\
  (forall i st1,
      pipeline_attempt E q i st1
        = (c <- create_research_crew E q ;; kickoff E c) (entered i st1) /\
      trace (entered i st1)
        = ((if i >? 0 then [Sleep (inject_Z (retry_delay * i))] else []) ++ trace st1)%list) /\
  (forall raw s0,
      pipeline_attempt E q 0 st = (inl raw, s0) ->
      waits_before_attempts (journal st (snd (run_research E q st))) = [0%Q]) /\
  (forall e0 s0 raw s1,
      pipeline_attempt E q 0 st = (inr e0, s0) ->
      pipeline_attempt E q 1 (snd (attempt_body E q 0 st)) = (inl raw, s1) ->
      waits_before_attempts (journal st (snd (run_research E q st)))
        = [0%Q;
           inject_Z ((if is_rate_limit e0 then retry_delay * 1 else retry_delay)
                     + retry_delay * 1)]) /\
  (forall e0 s0 e1 s1,
      pipeline_attempt E q 0 st = (inr e0, s0) ->
      pipeline_attempt E q 1 (snd (attempt_body E q 0 st)) = (inr e1, s1) ->
      waits_before_attempts (journal st (snd (run_research E q st)))
        = [0%Q;
           inject_Z ((if is_rate_limit e0 then retry_delay * 1 else retry_delay)
                     + retry_delay * 1);
           inject_Z ((if is_rate_limit e1 then retry_delay * 2 else retry_delay)
                     + retry_delay * 2)]).
Proof.
  split; [intros i st0 e st1; apply attempt_body_retries|].
  split; [intros i st1; split; [apply pipeline_attempt_eq | reflexivity]|].
  assert (Hloop : forall s, for_each (range max_retries) (attempt_body E q) s
                            = for_each [0; 1; 2] (attempt_body E q) s) by reflexivity.
  split; [|split].
  - intros raw s0 H0.
    assert (Hfinal : snd (run_research E q st) = s0).
    { unfold run_research, bind at 1. rewrite Hloop. cbn [for_each]. unfold bind.
      rewrite (attempt_body_report E q 0 st raw s0 H0). reflexivity. }
    rewrite Hfinal.
    destruct (pipeline_trace E q 0 st) as (t0 & Ht0 & Htr0). rewrite H0 in Htr0.
    cbn [snd entry_delay Z.gtb Z.compare app] in Htr0.
    rewrite (journal_chronological st s0 (PipelineStart q 0 :: rev t0)).
    + unfold waits_before_attempts. cbn [waits]. now rewrite waits_tool_only.
    + rewrite Htr0. cbn [rev]. rewrite rev_involutive, <- app_assoc. reflexivity.
  - intros e0 s0 raw s1 H0 H1.
    destruct (attempt_body_retries E q 0 st e0 s0 ltac:(unfold max_retries; lia) H0)
      as [l0 Hb0].
    rewrite Hb0 in H1. cbn [snd] in H1.
    assert (Hfinal : snd (run_research E q st) = s1).
    { unfold run_research, bind at 1. rewrite Hloop. cbn [for_each]. unfold bind.
      rewrite Hb0. rewrite (attempt_body_report E q 1 _ raw s1 H1). reflexivity. }
    rewrite Hfinal.
    destruct (pipeline_trace E q 0 st) as (t0 & Ht0 & Htr0). rewrite H0 in Htr0.
    match type of H1 with
    | pipeline_attempt E q 1 ?sA = _ =>
        destruct (pipeline_trace E q 1 sA) as (t1 & Ht1 & Htr1)
    end.
    rewrite H1 in Htr1.
    cbn [snd logged trace entry_delay Z.gtb Z.compare app] in Htr0, Htr1.
    rewrite Htr0 in Htr1. clear Htr0.
    rewrite (journal_chronological st s1
               (PipelineStart q 0 :: rev t0
                  ++ Print l0
                  :: Sleep (inject_Z (if is_rate_limit e0 then retry_delay * (0 + 1)
                                      else retry_delay))
                  :: Sleep (inject_Z (retry_delay * 1)) :: PipelineStart q 0 :: rev t1)).
    + unfold waits_before_attempts. cbn [waits].
      rewrite waits_tool_events by exact Ht0. cbn [waits].
      rewrite waits_tool_only by exact Ht1.
      destruct (is_rate_limit e0); reflexivity.
    + rewrite Htr1. cbn [rev]. rewrite !rev_app_distr. cbn [rev].
      rewrite !rev_involutive. rewrite <- !app_assoc. cbn [app].
      rewrite <- ?app_assoc. reflexivity.
  - intros e0 s0 e1 s1 H0 H1.
    destruct (attempt_body_retries E q 0 st e0 s0 ltac:(unfold max_retries; lia) H0)
      as [l0 Hb0].
    rewrite Hb0 in H1. cbn [snd] in H1.
    destruct (attempt_body_retries E q 1 _ e1 s1 ltac:(unfold max_retries; lia) H1)
      as [l1 Hb1].
    match type of Hb1 with
    | _ = (_, ?sB) =>
        assert (Hfinal : snd (run_research E q st) = snd (pipeline_attempt E q 2 sB));
        [|destruct (pipeline_trace E q 2 sB) as (t2 & Ht2 & Htr2)]
    end.
    { unfold run_research, bind at 1. rewrite Hloop. cbn [for_each]. unfold bind.
      rewrite Hb0, Hb1. rewrite <- attempt_body_last.
      destruct (attempt_body_iteration E q 2
                  (logged [Sleep (inject_Z (if is_rate_limit e1 then retry_delay * (1 + 1)
                                            else retry_delay)); Print l1] s1))
        as (r & s2 & Hb2 & Hiter).
      rewrite Hb2. destruct r as [text|]; [reflexivity|].
      apply iteration_continues in Hiter. unfold max_retries in Hiter. lia. }
    rewrite Hfinal.
    destruct (pipeline_trace E q 0 st) as (t0 & Ht0 & Htr0). rewrite H0 in Htr0.
    match type of H1 with
    | pipeline_attempt E q 1 ?sA = _ =>
        destruct (pipeline_trace E q 1 sA) as (t1 & Ht1 & Htr1)
    end.
    rewrite H1 in Htr1.
    cbn [snd logged trace entry_delay Z.gtb Z.compare app] in Htr0, Htr1, Htr2.
    rewrite Htr0 in Htr1. rewrite Htr1 in Htr2. clear Htr0 Htr1.
    rewrite (journal_chronological st _
               (PipelineStart q 0 :: rev t0
                  ++ Print l0
                  :: Sleep (inject_Z (if is_rate_limit e0 then retry_delay * (0 + 1)
                                      else retry_delay))
                  :: Sleep (inject_Z (retry_delay * 1)) :: PipelineStart q 0 :: rev t1
                  ++ Print l1
                  :: Sleep (inject_Z (if is_rate_limit e1 then retry_delay * (1 + 1)
                                      else retry_delay))
                  :: Sleep (inject_Z (retry_delay * 2)) :: PipelineStart q 0 :: rev t2)).
    + unfold waits_before_attempts. cbn [waits].
      rewrite waits_tool_events by exact Ht0. cbn [waits].
      rewrite waits_tool_events by exact Ht1. cbn [waits].
      rewrite waits_tool_only by exact Ht2.
      destruct (is_rate_limit e0), (is_rate_limit e1); reflexivity.
    + rewrite Htr2. cbn [rev]. rewrite !rev_app_distr. cbn [rev].
      rewrite !rev_app_distr. cbn [rev]. rewrite !rev_involutive.
      rewrite <- !app_assoc. cbn [app]. rewrite <- ?app_assoc. reflexivity.
Qed.

Lemma retry_backoff_witness :
  waits_before_attempts
    (journal initial_state (snd (run_research world_no_search_key "topic" initial_state)))
    = [0%Q; 6%Q; 9%Q] /\
  waits_before_attempts
    (journal initial_state (snd (run_research world_rate_limited "topic" initial_state)))
    = [0%Q; 6%Q; 12%Q].
Proof.
  split.
  - apply (proj2 (proj2 (proj2 (proj2
             (retry_backoff world_no_search_key "topic" initial_state))))
             (ValueError "LINKUP_API_KEY environment variable not set")
             (snd (pipeline_attempt world_no_search_key "topic" 0 initial_state))
             (ValueError "LINKUP_API_KEY environment variable not set")
             (snd (pipeline_attempt world_no_search_key "topic" 1
                     (snd (attempt_body world_no_search_key "topic" 0 initial_state)))));
      vm_compute; reflexivity.
  - apply (proj2 (proj2 (proj2 (proj2
             (retry_backoff world_rate_limited "topic" initial_state))))
             (Exn "<class 'litellm.RateLimitError'>" "Rate limit exceeded")
             (snd (pipeline_attempt world_rate_limited "topic" 0 initial_state))
             (Exn "<class 'litellm.RateLimitError'>" "Rate limit exceeded")
             (snd (pipeline_attempt world_rate_limited "topic" 1
                     (snd (attempt_body world_rate_limited "topic" 0 initial_state)))));
      vm_compute; reflexivity.
Defined.

(** ** [app.py]: the word count *)

Module AppFacts.

Import App.

Lemma strip_markers_length (s : string) :
  (String.length (strip_markers s) <= String.length s)%nat.
Proof.
  induction s as [|c s IH]; [reflexivity|].
  cbn [strip_markers]. destruct (is_marker c); cbn [String.length]; lia.
Qed.

Lemma strip_markers_append (s1 s2 : string) :
  strip_markers (s1 ++ s2) = strip_markers s1 ++ strip_markers s2.
Proof.
  induction s1 as [|c s1 IH]; [reflexivity|].
  cbn [append strip_markers]. rewrite IH. now destruct (is_marker c).
Qed.

Lemma strip_markers_unmarked (s : string) :
  unmarked s = true -> strip_markers s = s.
Proof.
  induction s as [|c s IH]; [reflexivity|].
  cbn [unmarked strip_markers]. intros H. apply andb_prop in H as [Hc Hs].
  destruct (is_marker c); [discriminate Hc | now rewrite IH].
Qed.

Lemma strip_markers_occurs (c : ascii) (s : string) :
  occurs c s = false -> occurs c (strip_markers s) = false.
Proof.
  induction s as [|c' s IH]; [reflexivity|].
  cbn [occurs strip_markers]. intros H. apply orb_false_elim in H as [Hc Hs].
  destruct (is_marker c'); [now apply IH|].
  cbn [occurs]. now rewrite Hc, IH.
Qed.

Lemma span_until_length (stop : ascii) (s : string) :
  (String.length (fst (span_until stop s)) + String.length (snd (span_until stop s))
     = String.length s)%nat.
Proof.
  induction s as [|c s IH]; [reflexivity|].
  cbn [span_until]. destruct (c =? stop)%char; [reflexivity|].
  destruct (span_until stop s) as [run rest]. cbn [fst snd String.length] in *. lia.
Qed.

Lemma span_until_append (stop : ascii) (run rest : string) :
  occurs stop run = false ->
  span_until stop (run ++ String stop rest) = (run, String stop rest).
Proof.
  induction run as [|c run IH]; intros H.
  - cbn [append span_until]. now rewrite Ascii.eqb_refl.
  - cbn [occurs] in H. apply orb_false_elim in H as [Hc Hrun].
    cbn [append span_until]. rewrite Hc, IH by exact Hrun. reflexivity.
Qed.

(** A match consumes more than it gives back. *)
Lemma match_link_length (s text rest : string) :
  match_link s = Some (text, rest) ->
  (String.length text + String.length rest + 5 <= String.length s)%nat.
Proof.
  unfold match_link.
  destruct s as [|c s1]; [discriminate|].
  destruct c as [[] [] [] [] [] [] [] []]; try discriminate.
  pose proof (span_until_length "]" s1) as H1.
  destruct (span_until "]" s1) as [[|c1 text1] r1]; [discriminate|].
  destruct r1 as [|c r1]; [discriminate|].
  destruct c as [[] [] [] [] [] [] [] []]; try discriminate.
  destruct r1 as [|c s2]; [discriminate|].
  destruct c as [[] [] [] [] [] [] [] []]; try discriminate.
  pose proof (span_until_length ")" s2) as H2.
  destruct (span_until ")" s2) as [[|c2 url] r2]; [discriminate|].
  destruct r2 as [|c s3]; [discriminate|].
  destruct c as [[] [] [] [] [] [] [] []]; try discriminate.
  intros H. inversion H; subst. cbn [fst snd String.length] in *. lia.
Qed.

(** With fuel for every character left, the scan does not depend on
    the fuel. *)
Lemma collapse_links_fuel_enough (fuel : nat) : forall (fuel' : nat) (s : string),
  (String.length s <= fuel)%nat -> (String.length s <= fuel')%nat ->
  collapse_links_fuel fuel s = collapse_links_fuel fuel' s.
Proof.
  induction fuel as [|fuel IH]; intros fuel' s H H'.
  - destruct s; [|cbn in H; lia]. now destruct fuel'.
  - destruct s as [|c s]; [now destruct fuel'|].
    destruct fuel' as [|fuel']; [cbn in H'; lia|].
    cbn [collapse_links_fuel].
    destruct (match_link (String c s)) as [[text rest]|] eqn:Hm.
    + apply match_link_length in Hm. cbn [String.length] in *.
      f_equal. apply IH; lia.
    + cbn [String.length] in *. f_equal. apply IH; lia.
Qed.

Lemma collapse_links_step (c : ascii) (s : string) :
  collapse_links (String c s) =
    match match_link (String c s) with
    | Some (text, rest) => text ++ collapse_links rest
    | None => String c (collapse_links s)
    end.
Proof.
  unfold collapse_links. cbn [String.length collapse_links_fuel].
  destruct (match_link (String c s)) as [[text rest]|] eqn:Hm.
  - apply match_link_length in Hm. cbn [String.length] in Hm.
    f_equal. apply collapse_links_fuel_enough; lia.
  - reflexivity.
Qed.

Lemma collapse_links_length (n : nat) : forall s,
  String.length s = n ->
  (String.length (collapse_links s) <= String.length s)%nat.
Proof.
  induction n as [n IH] using lt_wf_ind. intros s Hn.
  destruct s as [|c s]; [reflexivity|].
  rewrite collapse_links_step.
  destruct (match_link (String c s)) as [[text rest]|] eqn:Hm.
  - apply match_link_length in Hm. rewrite length_append.
    pose proof (IH (String.length rest) ltac:(lia) rest eq_refl). lia.
  - cbn [String.length] in *.
    pose proof (IH (String.length s) ltac:(lia) s eq_refl). lia.
Qed.

Lemma match_link_needs_bracket (close : ascii) (s : string) :
  close = "]"%char \/ close = "["%char ->
  occurs close s = false -> match_link s = None.
Proof.
  intros Hclose Hocc. unfold match_link.
  destruct s as [|c s1]; [reflexivity|].
  destruct c as [[] [] [] [] [] [] [] []]; try reflexivity.
  destruct Hclose as [-> | ->]; [|cbn in Hocc; discriminate Hocc].
  cbn [occurs] in Hocc. apply orb_false_elim in Hocc as [_ Hocc].
  assert (Hspan : forall s, occurs "]" s = false -> snd (span_until "]" s) = EmptyString).
  { induction s as [|c s IH]; [reflexivity|].
    cbn [occurs span_until]. intros H. apply orb_false_elim in H as [Hc Hs].
    rewrite Hc. specialize (IH Hs). destruct (span_until "]" s). exact IH. }
  specialize (Hspan s1 Hocc).
  destruct (span_until "]" s1) as [[|c1 text] r1]; [reflexivity|].
  cbn [snd] in Hspan. now subst r1.
Qed.

(** Text without a closing bracket, or without an opening one, has no
    link to collapse. *)
Lemma collapse_links_plain (close : ascii) (s : string) :
  close = "]"%char \/ close = "["%char ->
  occurs close s = false -> collapse_links s = s.
Proof.
  intros Hclose. induction s as [|c s IH]; intros Hocc; [reflexivity|].
  rewrite collapse_links_step, (match_link_needs_bracket close) by assumption.
  cbn [occurs] in Hocc. apply orb_false_elim in Hocc as [_ Hocc].
  now rewrite IH.
Qed.

Lemma split_from_bound (s : string) : forall word,
  (2 * length (split_from word s)
     <= String.length s + match word with EmptyString => 1 | _ => 2 end)%nat.
Proof.
  induction s as [|c s IH]; intros word.
  - destruct word; cbn; lia.
  - cbn [split_from String.length]. destruct (is_space c).
    + pose proof (IH EmptyString) as H. cbv iota in H.
      destruct word; cbn [length]; cbv iota; lia.
    + pose proof (IH (word ++ String c EmptyString)) as H.
      destruct (word ++ String c EmptyString) eqn:Hw.
      * destruct word; discriminate Hw.
      * cbv iota in H. destruct word; cbv iota; lia.
Qed.

Lemma split_from_space (sep : ascii) (s2 : string) (Hsep : is_space sep = true) (s1 : string) :
  forall word,
    split_from word (s1 ++ String sep s2) = (split_from word s1 ++ split s2)%list.
Proof.
  induction s1 as [|c s1 IH]; intros word.
  - cbn [append split_from]. rewrite Hsep. now destruct word.
  - cbn [append split_from]. destruct (is_space c).
    + destruct word; [apply IH|]. cbn [app]. f_equal. apply IH.
    + apply IH.
Qed.

Lemma space_not_marker (c : ascii) : is_space c = true -> is_marker c = false.
Proof. destruct c as [[] [] [] [] [] [] [] []]; cbn; intros H; try discriminate H; reflexivity. Qed.

Lemma space_not_bracket (c : ascii) : is_space c = true -> (c =? "[")%char = false.
Proof. destruct c as [[] [] [] [] [] [] [] []]; cbn; intros H; try discriminate H; reflexivity. Qed.

End AppFacts.

Module AppProperties.

Import App AppFacts.

(** The word count of [estimate_word_count] is never negative and
    never more than half the characters of the content, rounded up:
    words are runs of at least one character with whitespace between
    them, and neither stripping markers nor collapsing links adds
    characters. *)
Theorem word_count_bounded (content : string) :
  0 <= estimate_word_count content /\
  2 * estimate_word_count content <= len content + 1.
Proof.
  unfold estimate_word_count, split, len. cbv zeta. split; [lia|].
  pose proof (split_from_bound (collapse_links (strip_markers content)) EmptyString) as Hs.
  pose proof (collapse_links_length _ (strip_markers content) eq_refl) as Hc.
  pose proof (strip_markers_length content) as Hm.
  cbv iota in Hs. lia.
Qed.

Lemma blank_split (s : string) :
  blank s = true ->
  occurs "[" (strip_markers s) = false /\
  forall word, split_from word (strip_markers s) = split_from word EmptyString.
Proof.
  induction s as [|c s IH]; [now split|].
  cbn [blank strip_markers]. intros H. apply andb_prop in H as [Hc Hs].
  destruct (IH Hs) as [Hocc Hsplit].
  destruct (is_marker c) eqn:Hm; [now split|].
  rewrite orb_false_r in Hc. split.
  - cbn [occurs]. now rewrite (space_not_bracket c Hc), Hocc.
  - intros word. cbn [split_from]. rewrite Hc, Hsplit. now destruct word.
Qed.

(** Content made of whitespace and of the markers [*], [#] and the
    backquote only, the empty content included, counts no word. *)
Theorem blank_content_no_words (content : string)
  (Hblank : blank content = true) :
  estimate_word_count content = 0.
Proof.
  destruct (blank_split content Hblank) as [Hocc Hsplit].
  unfold estimate_word_count, split. cbv zeta.
  rewrite (collapse_links_plain "[") by auto. now rewrite Hsplit.
Qed.

Lemma blank_content_no_words_witness :
  estimate_word_count (String "#" (String "#" (String " " (String "*" (String "*"
     (String (ascii_of_nat 10) (String "`" EmptyString))))))) = 0.
Proof. apply blank_content_no_words. reflexivity. Defined.

Lemma match_link_found (t u rest : string) :
  t <> EmptyString -> occurs "]" t = false ->
  u <> EmptyString -> occurs ")" u = false ->
  match_link (String "[" (t ++ String "]" (String "(" (u ++ String ")" rest))))
    = Some (t, rest).
Proof.
  intros Ht Hto Hu Huo. unfold match_link.
  rewrite (span_until_append "]" t _ Hto).
  destruct t as [|c t]; [now elim Ht|].
  rewrite (span_until_append ")" u _ Huo).
  destruct u as [|c' u]; [now elim Hu|]. reflexivity.
Qed.

(** A markdown link counts as its text: where the text has no closing
    bracket, the address no closing parenthesis and neither is empty
    or holds a marker, the link is replaced by its text alone, what
    follows it being scanned in turn, and a content that is one such
    link has the word count of the text, whatever the address holds. *)
Theorem link_counts_as_its_text (t u : string)
  (Htext : t <> EmptyString) (Htext_closed : occurs "]" t = false)
  (Htext_plain : unmarked t = true)
  (Hurl : u <> EmptyString) (Hurl_closed : occurs ")" u = false)
  (Hurl_plain : unmarked u = true) :
  (forall rest,
      collapse_links (strip_markers ("[" ++ t ++ "](" ++ u ++ ")" ++ rest))
        = t ++ collapse_links (strip_markers rest)) /\
  estimate_word_count ("[" ++ t ++ "](" ++ u ++ ")") = estimate_word_count t.
Proof.
  assert (Hcollapse : forall rest,
             collapse_links (strip_markers ("[" ++ t ++ "](" ++ u ++ ")" ++ rest))
               = t ++ collapse_links (strip_markers rest)).
  { intros rest.
    change ("[" ++ t ++ "](" ++ u ++ ")" ++ rest)
      with (String "[" (t ++ String "]" (String "(" (u ++ String ")" rest)))).
    change (strip_markers (String "[" (t ++ String "]" (String "(" (u ++ String ")" rest)))))
      with (String "[" (strip_markers (t ++ String "]" (String "(" (u ++ String ")" rest))))).
    rewrite strip_markers_append.
    change (strip_markers (String "]" (String "(" (u ++ String ")" rest))))
      with (String "]" (String "(" (strip_markers (u ++ String ")" rest)))).
    rewrite strip_markers_append.
    change (strip_markers (String ")" rest)) with (String ")" (strip_markers rest)).
    rewrite !strip_markers_unmarked by assumption.
    rewrite collapse_links_step, match_link_found by assumption. reflexivity. }
  split; [exact Hcollapse|].
  unfold estimate_word_count. cbv zeta.
  specialize (Hcollapse EmptyString).
  change (")" ++ EmptyString) with ")" in Hcollapse.
  rewrite Hcollapse.
  change (collapse_links (strip_markers EmptyString)) with EmptyString.
  rewrite strip_markers_unmarked by assumption.
  rewrite (collapse_links_plain "]" t) by auto.
  assert (Hnil : forall s, s ++ EmptyString = s)
    by (induction s as [|c s IH]; [reflexivity | cbn; now rewrite IH]).
  now rewrite Hnil.
Qed.

Lemma link_counts_as_its_text_witness :
  estimate_word_count ("[" ++ "annual report" ++ "](" ++ "https://example.org/a b c" ++ ")")
    = 2.
Proof.
  rewrite (proj2 (link_counts_as_its_text "annual report" "https://example.org/a b c"
                    ltac:(discriminate) eq_refl eq_refl ltac:(discriminate) eq_refl eq_refl)).
  reflexivity.
Defined.

Lemma occurs_append (c : ascii) (s1 s2 : string) :
  occurs c (s1 ++ s2) = occurs c s1 || occurs c s2.
Proof.
  induction s1 as [|c' s1 IH]; [reflexivity|].
  cbn [append occurs]. now rewrite IH, orb_assoc.
Qed.

(** For contents without an opening bracket, hence without links, the
    word count is additive over whitespace: two such contents joined
    by a whitespace character count as many words as the two apart. *)
Theorem plain_words_add_up (a b : string) (sep : ascii)
  (Hsep : is_space sep = true)
  (Ha : occurs "[" a = false) (Hb : occurs "[" b = false) :
  estimate_word_count (a ++ String sep b)
    = estimate_word_count a + estimate_word_count b.
Proof.
  unfold estimate_word_count. cbv zeta.
  rewrite strip_markers_append. cbn [strip_markers].
  rewrite (space_not_marker sep Hsep).
  apply (strip_markers_occurs "[") in Ha, Hb.
  rewrite (collapse_links_plain "[" (strip_markers a)),
    (collapse_links_plain "[" (strip_markers b)) by auto.
  rewrite (collapse_links_plain "[").
  - unfold split. rewrite (split_from_space sep _ Hsep), length_app. fold (split (strip_markers b)). lia.
  - now right.
  - rewrite occurs_append. cbn [occurs].
    now rewrite Ha, Hb, (space_not_bracket sep Hsep).
Qed.

Lemma plain_words_add_up_witness :
  estimate_word_count ("## Key findings" ++ String (ascii_of_nat 10) "**Two** trends") = 2 + 2.
Proof.
  rewrite (plain_words_add_up "## Key findings" "**Two** trends" (ascii_of_nat 10)
             eq_refl eq_refl eq_refl).
  reflexivity.
Defined.

End AppProperties.

Module PdfProperties.

Import App AppFacts.










End PdfProperties.
